(** * mk.py: the build script of presheaf, and what its specification says of it

    The script is embedded function by function.  What it calls from the
    Python library and the operating system (os.path.exists, os.remove,
    shutil.rmtree, subprocess.run, the directory listing under glob.glob,
    os.walk) is an interface, [Host], over an abstract world; the script's
    own functions are programs in a monad that threads the world, collects
    the observable events (printed lines, started processes, removals) and
    propagates Python exceptions. *)

From Stdlib Require Import String Ascii List Bool ZArith Lia PeanoNat.
From Stdlib Require Import DecimalString.
From Stdlib Require Import Orders Sorted Permutation Mergesort.
Import ListNotations.

Local Open Scope string_scope.
Local Open Scope list_scope.

(** ** Strings *)

Definition chars (s : string) : list ascii := list_ascii_of_string s.

Fixpoint fill (c : ascii) (n : nat) : string :=
  match n with
  | O => ""
  | S k => String c (fill c k)
  end.

(** The format specification [{s:-^80}]: [s] centred in 80 columns, the
    padding made of [c], the smaller half of it on the left. *)
Definition center (c : ascii) (width : nat) (s : string) : string :=
  let pad := width - String.length s in
  let left := Nat.div pad 2 in
  fill c left ++ s ++ fill c (pad - left).

(** [str(n)] for a natural number. *)
Definition str_nat (n : nat) : string := NilEmpty.string_of_uint (Nat.to_uint n).

Definition ESC : string := String "027"%char "".

(** [list.sort()] on a list of [str]: ascending in the order of [str], which
    compares code points; on the UTF-8 bytes of a [string] that is the
    byte-wise lexicographic order [String.leb]. *)
Module StrOrder <: TotalLeBool.

Definition t := string.
Definition leb := String.leb.

Theorem leb_total : forall a1 a2, leb a1 a2 = true \/ leb a2 a1 = true.
Proof. exact String.leb_total. Qed.

End StrOrder.

Module StrSort := Sort StrOrder.

(** ** Settings (mk.py, lines 21-29) *)

Definition POSIX_BUILDER := "Ninja".
Definition POSIX_CPP_COMPILER := "clang++".
Definition POSIX_C_COMPILER := "clang".
Definition POSIX_LINKER := "mold".

Definition WIN_BUILDER := "Ninja".
Definition WIN_CPP_COMPILER := "clang-cl".
Definition WIN_C_COMPILER := "clang-cl".
Definition WIN_LINKER := "lld-link".

(** ** The module's global variables

    [CURRENT_*] and [CMAKE_FLAGS] are module globals.  [CMAKE_FLAGS] is a
    list object built once, from the values the [CURRENT_*] names have at
    that moment; rebinding a [CURRENT_*] name later does not touch it. *)
Record Globals := mkGlobals {
  CURRENT_BUILDER : string;
  CURRENT_CPP_COMPILER : string;
  CURRENT_C_COMPILER : string;
  CURRENT_LINKER : string;
  CMAKE_FLAGS : list string
}.

(** The result of [parser.parse_args()].  [--build] is declared with
    [choices=["debug", "release"]], so that [args.build] is [None] or one
    of the two. *)
Inductive build_choice := debug | release.

Record Args := mkArgs {
  c_compiler : option string;
  cpp_compiler : option string;
  linker : option string;
  builder : option string;
  clean : bool;
  build : option build_choice;
  test : option string;
  clear_cache : bool;
  fmt : bool;
  spell : bool
}.

Definition DEBUG_FLAGS : list string :=
  [ "-DCMAKE_BUILD_TYPE=Debug";
    "-DPSH_DEBUG=ON";
    "-DPSH_ENABLE_LOGGING=ON";
    "-DPSH_BUILD_TESTS=ON" ].

Definition RELEASE_FLAGS : list string :=
  [ "-DCMAKE_BUILD_TYPE=Release";
    "-DPSH_DEBUG=OFF";
    "-DPSH_ENABLE_LOGGING=OFF";
    "-DPSH_BUILD_TESTS=ON" ].

Definition CPP_SRC_EXTENSION := ".cc".
Definition CPP_HEADER_EXTENSION := ".h".

Definition SCRIPT_INDICATOR : string := ESC ++ "[1;35m[mk]" ++ ESC ++ "[0m".

(** ** Exceptions, results, events *)

(** An [OSError] as [command_clean] reads it: [e.filename], [e.strerror]. *)
Record OSError := mkOSError { filename : string; strerror : string }.

Inductive result (A : Type) :=
| Ok (a : A)
| Raise (e : OSError).
Arguments Ok {A} a.
Arguments Raise {A} e.

(** How [subprocess.run] ends: the process ran and left a return code, or
    it could not be started and [run] raised. *)
Inductive completed :=
| Exited (returncode : Z)
| NotStarted (e : OSError).

Inductive event :=
| Output (line : string)
| Spawn (cmd : list string) (c : completed)
| Remove (path : string) (failure : option OSError)
| Rmtree (path : string) (failure : option OSError).

(** ** The host *)

Record Host (W : Type) := mkHost {
  (** [os.name] *)
  os_name : string;
  (** [os.path.exists] *)
  path_exists : string -> W -> bool;
  (** the names [glob] finds in a directory (none when it cannot be read) *)
  listdir : string -> W -> list string;
  (** [os.walk]: each directory under a root with the files in it *)
  os_walk : string -> W -> list (string * list string);
  (** [os.remove] *)
  os_remove : string -> W -> option OSError * W;
  (** [shutil.rmtree] *)
  rmtree : string -> W -> option OSError * W;
  (** [subprocess.run] *)
  sp_dot_run : list string -> W -> completed * W;
  (** [subprocess.list2cmdline] *)
  list2cmdline : list string -> string;
  (** whether a character belongs to the set a bracket expression of an
      fnmatch pattern denotes, given the text between the brackets *)
  in_bracket_set : list ascii -> ascii -> bool
}.

Arguments os_name {W} _.
Arguments path_exists {W} _ _ _.
Arguments listdir {W} _ _ _.
Arguments os_walk {W} _ _ _.
Arguments os_remove {W} _ _ _.
Arguments rmtree {W} _ _ _.
Arguments sp_dot_run {W} _ _ _.
Arguments list2cmdline {W} _ _.
Arguments in_bracket_set {W} _ _ _.

(** ** The monad of the script: world, events, exceptions *)

Definition M (W A : Type) : Type := W -> result A * W * list event.

Definition ret {W A} (a : A) : M W A := fun w => (Ok a, w, []).

Definition bind {W A B} (m : M W A) (f : A -> M W B) : M W B :=
  fun w =>
    match m w with
    | (Ok a, w1, t1) =>
        match f a w1 with
        | (r, w2, t2) => (r, w2, t1 ++ t2)
        end
    | (Raise e, w1, t1) => (Raise e, w1, t1)
    end.

(** [try: m except OSError as e: handler(e)] *)
Definition try_except {W A} (m : M W A) (handler : OSError -> M W A) : M W A :=
  fun w =>
    match m w with
    | (Ok a, w1, t1) => (Ok a, w1, t1)
    | (Raise e, w1, t1) =>
        match handler e w1 with
        | (r, w2, t2) => (r, w2, t1 ++ t2)
        end
    end.

Definition emit {W} (e : event) : M W unit := fun w => (Ok tt, w, [e]).
Definition raise {W A} (e : OSError) : M W A := fun w => (Raise e, w, []).
Definition ask {W A} (q : W -> A) : M W A := fun w => (Ok (q w), w, []).

Declare Scope script_scope.
Delimit Scope script_scope with script.
Notation "x <- m ;; k" := (bind m (fun x => k))
  (at level 61, m at next level, right associativity) : script_scope.
Notation "m ;; k" := (bind m (fun _ => k))
  (at level 61, right associativity) : script_scope.
Local Open Scope script_scope.

Definition outcome {W A} (r : result A * W * list event) : result A := fst (fst r).
Definition world_after {W A} (r : result A * W * list event) : W := snd (fst r).
Definition events {W A} (r : result A * W * list event) : list event := snd r.

(** The command lines handed to [subprocess.run], in order. *)
Fixpoint spawned (t : list event) : list (list string) :=
  match t with
  | [] => []
  | Spawn cmd _ :: t' => cmd :: spawned t'
  | _ :: t' => spawned t'
  end.

(** The lines printed, in order. *)
Fixpoint printed (t : list event) : list string :=
  match t with
  | [] => []
  | Output l :: t' => l :: printed t'
  | _ :: t' => printed t'
  end.

(** The exit status of the interpreter: 0 when the module body runs to its
    end, 1 when an exception leaves it. *)
Definition exit_code {A} (r : result A) : Z :=
  match r with
  | Ok _ => 0
  | Raise _ => 1
  end.

(** ** Path names

    [Path("./build")] prints as [build]; [/] joins with the separator of the
    platform.  The right operand is taken as pathlib leaves a plain name: an
    absolute operand, [.] components and doubled separators, which pathlib
    normalises, are outside this model. *)

Section Script.

Context {W : Type} (host : Host W).

Local Open Scope string_scope.

Definition is_posix : bool := (os_name host =? "posix").

(** mk.py, lines 34-35. *)
Definition os_choose (posix win : string) : string :=
  if os_name host =? "posix" then posix else win.

Definition sep : string := if is_posix then "/" else "\".

Definition path_div (dir name : string) : string := dir ++ sep ++ name.

Definition BINARY_EXT : string := os_choose "" ".exe".

Definition SRC_DIR := "src".
Definition INCLUDE_DIR := "include".
Definition TEST_DIR := "tests".
Definition BUILD_DIR := "build".
Definition BIN_DIR : string := path_div BUILD_DIR "bin".
Definition CMAKE_CACHE_PATH : string := path_div BUILD_DIR "CMakeCache.txt".

(** ** Module body, lines 38-56: the globals as first bound *)

Definition linker_flags (l : string) : list string :=
  [ ("-DCMAKE_EXE_LINKER_FLAGS='-fuse-ld=" ++ l ++ "'")%string;
    ("-DCMAKE_SHARED_LINKER_FLAGS='-fuse-ld=" ++ l ++ "'")%string ].

Definition toolchain_flags (b cpp c : string) : list string :=
  [ ("-G=" ++ b)%string;
    ("-DCMAKE_CXX_COMPILER=" ++ cpp)%string;
    ("-DCMAKE_C_COMPILER=" ++ c)%string ].

Definition initial_globals : Globals :=
  let b := os_choose POSIX_BUILDER WIN_BUILDER in
  let cpp := os_choose POSIX_CPP_COMPILER WIN_CPP_COMPILER in
  let c := os_choose POSIX_C_COMPILER WIN_C_COMPILER in
  let l := os_choose POSIX_LINKER WIN_LINKER in
  let flags := toolchain_flags b cpp c in
  let flags := if l =? "mold" then (flags ++ linker_flags l)%list else flags in
  mkGlobals b cpp c l flags.

(** ** Module body, lines 245-252: the overrides rebind the names *)

Definition set_builder (v : string) (g : Globals) : Globals :=
  mkGlobals v (CURRENT_CPP_COMPILER g) (CURRENT_C_COMPILER g) (CURRENT_LINKER g)
            (CMAKE_FLAGS g).
Definition set_c_compiler (v : string) (g : Globals) : Globals :=
  mkGlobals (CURRENT_BUILDER g) (CURRENT_CPP_COMPILER g) v (CURRENT_LINKER g)
            (CMAKE_FLAGS g).
Definition set_cpp_compiler (v : string) (g : Globals) : Globals :=
  mkGlobals (CURRENT_BUILDER g) v (CURRENT_C_COMPILER g) (CURRENT_LINKER g)
            (CMAKE_FLAGS g).
Definition set_linker (v : string) (g : Globals) : Globals :=
  mkGlobals (CURRENT_BUILDER g) (CURRENT_CPP_COMPILER g) (CURRENT_C_COMPILER g) v
            (CMAKE_FLAGS g).

Definition when_given (o : option string) (set : string -> Globals -> Globals)
  (g : Globals) : Globals :=
  match o with
  | Some v => set v g
  | None => g
  end.

Definition apply_overrides (args : Args) (g : Globals) : Globals :=
  let g := when_given (builder args) set_builder g in
  let g := when_given (c_compiler args) set_c_compiler g in
  let g := when_given (cpp_compiler args) set_cpp_compiler g in
  when_given (linker args) set_linker g.

(** ** Printing (lines 86-103) *)

Definition print : string -> M W unit := fun s => emit (Output s).

Definition header (action : string) : M W unit :=
  let action := " " ++ action ++ " " in
  print (ESC ++ "[1;35m" ++ center "-" 80 action ++ ESC ++ "[0m").

Definition log_info (subact : string) : M W unit :=
  let indicator := ESC ++ "[1;32m[INFO]" ++ ESC ++ "[0m" in
  print (SCRIPT_INDICATOR ++ indicator ++ " " ++ subact).

Definition log_error (msg : string) : M W unit :=
  let indicator := ESC ++ "[1;31m[ERROR]" ++ ESC ++ "[0m" in
  print (SCRIPT_INDICATOR ++ indicator ++ " " ++ msg).

Definition log_command (cmd : string) : M W unit :=
  let indicator := ESC ++ "[1;36m[RUN]" ++ ESC ++ "[0m" in
  print (SCRIPT_INDICATOR ++ indicator ++ " " ++ cmd).

(** ** Processes (lines 106-112)

    [sp.run] is called without [check=True] and what it returns is dropped:
    the return code of the process reaches nothing in the script.  Only a
    process that cannot be started raises. *)

Definition sp_run (cmd : list string) : M W unit :=
  log_command (list2cmdline host cmd) ;;
  fun w =>
    match sp_dot_run host cmd w with
    | (Exited rc, w') => (Ok tt, w', [Spawn cmd (Exited rc)])
    | (NotStarted e, w') => (Raise e, w', [Spawn cmd (NotStarted e)])
    end.

Definition run_bin (bin_path : string) : M W unit := sp_run [bin_path].

(** ** fnmatch and glob, as far as [run_tests] uses them

    [glob.glob] is called on [str(BIN_DIR / search)]; [search] always holds
    a [*], so the match is [_glob1]: the names of the directory, without
    the hidden ones unless the pattern is hidden, filtered by
    [fnmatch.filter], each joined to the directory again.  A [search] with
    a separator in it, which makes glob descend, is outside this model.

    [fnmatch.translate] reads a pattern into [*], [?], a bracket expression
    or a character standing for itself; what a bracket expression contains
    is left to the host ([in_bracket_set]). *)

Inductive token :=
| Star
| AnyChar
| Lit (c : ascii)
| Bracket (stuff : list ascii).

Fixpoint find_close (j : nat) (l : list ascii) : option nat :=
  match l with
  | [] => None
  | c :: l' => if Ascii.eqb c "]" then Some j else find_close (S j) l'
  end.

(** Where the bracket expression opened just before [rest] closes: an
    initial [!] and a [[]]] right after it do not close it. *)
Definition closing (rest : list ascii) : option nat :=
  let j := match rest with
           | c :: _ => if Ascii.eqb c "!" then 1 else 0
           | [] => 0
           end in
  let j := match nth_error rest j with
           | Some c => if Ascii.eqb c "]" then S j else j
           | None => j
           end in
  find_close j (skipn j rest).

(** [skip] characters are still inside a bracket expression already read. *)
Fixpoint translate (skip : nat) (pat : list ascii) : list token :=
  match pat with
  | [] => []
  | c :: rest =>
      match skip with
      | S k => translate k rest
      | O =>
          if Ascii.eqb c "*" then Star :: translate 0 rest
          else if Ascii.eqb c "?" then AnyChar :: translate 0 rest
          else if Ascii.eqb c "[" then
            match closing rest with
            | None => Lit c :: translate 0 rest
            | Some j => Bracket (firstn j rest) :: translate (S j) rest
            end
          else Lit c :: translate 0 rest
      end
  end.

(** The whole name has to match. *)
Fixpoint matches (ts : list token) (s : list ascii) {struct ts} : bool :=
  match ts with
  | [] => match s with [] => true | _ :: _ => false end
  | Star :: ts' =>
      (fix star (s : list ascii) : bool :=
         matches ts' s || match s with [] => false | _ :: s' => star s' end) s
  | AnyChar :: ts' =>
      match s with [] => false | _ :: s' => matches ts' s' end
  | Lit c :: ts' =>
      match s with [] => false | d :: s' => Ascii.eqb c d && matches ts' s' end
  | Bracket stuff :: ts' =>
      match s with
      | [] => false
      | d :: s' => in_bracket_set host stuff d && matches ts' s'
      end
  end.

Definition lower (c : ascii) : ascii :=
  let n := nat_of_ascii c in
  if (65 <=? n)%nat && (n <=? 90)%nat then ascii_of_nat (n + 32) else c.

(** [ntpath.normcase], [s.replace("/", "\\").lower()], for a string in
    ASCII.  Python folds every letter, also those outside ASCII, which this
    function leaves as they are: off POSIX, a name or a pattern with such a
    letter is outside this model, and what is stated of patterns given on
    the command line is stated for ASCII there. *)
Definition nt_normcase (s : list ascii) : list ascii :=
  map (fun c => if Ascii.eqb c "/" then "\"%char else lower c) s.

(** [posixpath.normcase] is the identity. *)
Definition normcase (s : list ascii) : list ascii :=
  if is_posix then s else nt_normcase s.

Definition fnmatch_filter (names : list string) (pat : string) : list string :=
  let pat := normcase (chars pat) in
  filter (fun name => matches (translate 0 pat) (normcase (chars name))) names.

Definition ishidden (p : string) : bool :=
  match p with
  | String c _ => Ascii.eqb c "."
  | EmptyString => false
  end.

Definition glob1 (dirname pattern : string) (w : W) : list string :=
  let names := listdir host dirname w in
  let names := if ishidden pattern then names
               else filter (fun x => negb (ishidden x)) names in
  fnmatch_filter names pattern.

Definition glob (dirname pattern : string) (w : W) : list string :=
  map (path_div dirname) (glob1 dirname pattern w).

(** ** run_tests (lines 115-124) *)

Definition search_of (pattern : option string) : string :=
  match pattern with
  | None => "test*" ++ BINARY_EXT
  | Some p => "test*" ++ p ++ "*" ++ BINARY_EXT
  end.

(** The list [tests] after [tests.sort()]. *)
Definition sorted_tests (pattern : option string) (w : W) : list string :=
  StrSort.sort (glob BIN_DIR (search_of pattern) w).

Fixpoint run_each (tests : list string) (idx n_tests : nat) : M W unit :=
  match tests with
  | [] => ret tt
  | test :: rest =>
      log_info (String "010" "" ++ ESC ++ "[1;33m[test " ++ str_nat (idx + 1)
                ++ "/" ++ str_nat n_tests ++ "]" ++ ESC ++ "[0m: " ++ test ++ "...") ;;
      run_bin test ;;
      run_each rest (S idx) n_tests
  end.

Definition run_tests (pattern : option string) : M W unit :=
  header "Running tests" ;;
  tests <- ask (sorted_tests pattern) ;;
  let n_tests := List.length tests in
  run_each tests 0 n_tests.

(** ** The commands (lines 127-194) *)

Definition sources_in (root : string) (w : W) : list string :=
  flat_map (fun d => map (fun f => fst d ++ "/" ++ f) (snd d)) (os_walk host root w).

Definition get_all_sources (w : W) : list string :=
  (sources_in SRC_DIR w ++ sources_in INCLUDE_DIR w ++ sources_in TEST_DIR w)%list.

Definition command_format : M W unit :=
  header "Formatting all source and header files" ;;
  sources <- ask get_all_sources ;;
  sp_run ("clang-format" :: "-i" :: sources).

Definition command_spell : M W unit :=
  header "Checking for spelling typos" ;;
  sp_run ["codespell"].

Definition remove (path : string) : M W unit :=
  fun w =>
    match os_remove host path w with
    | (None, w') => (Ok tt, w', [Remove path None])
    | (Some e, w') => (Raise e, w', [Remove path (Some e)])
    end.

Definition shutil_rmtree (path : string) : M W unit :=
  fun w =>
    match rmtree host path w with
    | (None, w') => (Ok tt, w', [Rmtree path None])
    | (Some e, w') => (Raise e, w', [Rmtree path (Some e)])
    end.

Definition command_clear_cache : M W unit :=
  header "Cleaning CMake cache" ;;
  remove CMAKE_CACHE_PATH.

Definition command_clean : M W unit :=
  header "Removing existing build directory" ;;
  try_except (shutil_rmtree "./build")
    (fun e =>
       log_error ("Unable to remove build directory due to error: ["
                  ++ filename e ++ "] " ++ strerror e)).

Definition configure_cmd (g : Globals) (build_flags : list string) : list string :=
  ("cmake" :: CMAKE_FLAGS g ++ build_flags ++ ["-S"; "."; "-B"; BUILD_DIR])%list.

Definition build_cmd : list string := ["cmake"; "--build"; BUILD_DIR].

Definition command_build (g : Globals) (build_flags : list string) : M W unit :=
  present <- ask (path_exists host "./build") ;;
  (if negb present then
     header "Resolving third-party dependencies" ;;
     header "Generating the build directory" ;;
     sp_run (configure_cmd g build_flags)
   else ret tt) ;;
  header "Building project" ;;
  sp_run build_cmd.

Definition command_test (g : Globals) (pattern : string) : M W unit :=
  command_build g [] ;;
  if pattern =? "all" then run_tests None
  else
    exact <- ask (path_exists host (path_div BIN_DIR pattern)) ;;
    if exact then run_bin pattern else run_tests (Some pattern).

(** ** The module body after parsing (lines 245-269) *)

Definition when (b : bool) (m : M W unit) : M W unit := if b then m else ret tt.

Definition module_body (args : Args) : M W unit :=
  let g := apply_overrides args initial_globals in
  when (fmt args) command_format ;;
  when (spell args) command_spell ;;
  when (clean args) command_clean ;;
  when (clear_cache args) command_clear_cache ;;
  match build args with
  | Some debug => command_build g DEBUG_FLAGS
  | Some release => command_build g RELEASE_FLAGS
  | None => ret tt
  end ;;
  match test args with
  | Some pattern => command_test g pattern
  | None => ret tt
  end.

End Script.

(** ** A host to run the script on

    A disk with a build directory (or none), a CMake cache in it (or none)
    and the files of its [bin] directory.  The generator creates the build
    directory and the cache.  A program named by a bare word is looked up on
    the search path, which holds [cmake], [clang-format] and [codespell]; a
    program named by a path is started from that path.  Every process that
    starts ends with the same return code. *)
Module Sim.

Record disk := mkDisk {
  has_build : bool;
  has_cache : bool;
  bin : list string
}.

Definition no_such_file (name : string) : OSError :=
  mkOSError name "No such file or directory".

Fixpoint strip (pre s : string) : option string :=
  match pre with
  | EmptyString => Some s
  | String c pre' =>
      match s with
      | EmptyString => None
      | String d s' => if Ascii.eqb c d then strip pre' s' else None
      end
  end.

Definition has_sep (s : string) : bool :=
  existsb (fun c => Ascii.eqb c "/" || Ascii.eqb c "\")%bool (chars s).

Definition on_search_path (prog : string) : bool :=
  existsb (String.eqb prog) ["cmake"; "clang-format"; "codespell"].

Section WithPlatform.

Variable name : string.
Variable returncode : Z.

Definition sep : string := if (name =? "posix")%string then "/" else "\".
Definition bin_dir : string := ("build" ++ sep ++ "bin")%string.
Definition cache_path : string := ("build" ++ sep ++ "CMakeCache.txt")%string.

Definition exists_ (p : string) (d : disk) : bool :=
  if (p =? "./build")%string || (p =? "build")%string || (p =? bin_dir)%string
  then has_build d
  else if (p =? cache_path)%string then has_build d && has_cache d
  else match strip (bin_dir ++ sep)%string p with
       | Some n => has_build d && existsb (String.eqb n) (bin d)
       | None => false
       end.

Definition scan (dir : string) (d : disk) : list string :=
  if (dir =? bin_dir)%string && has_build d then bin d else [].

Definition unlink (p : string) (d : disk) : option OSError * disk :=
  if exists_ p d && (p =? cache_path)%string
  then (None, mkDisk (has_build d) false (bin d))
  else (Some (no_such_file p), d).

Definition remove_tree (p : string) (d : disk) : option OSError * disk :=
  if exists_ p d && ((p =? "./build")%string || (p =? "build")%string)
  then (None, mkDisk false false (bin d))
  else (Some (no_such_file p), d).

Definition is_configure (cmd : list string) : bool :=
  match cmd with
  | prog :: arg :: _ => (prog =? "cmake")%string && negb (arg =? "--build")%string
  | _ => false
  end.

Definition run (cmd : list string) (d : disk) : completed * disk :=
  match cmd with
  | [] => (NotStarted (no_such_file ""), d)
  | prog :: _ =>
      if on_search_path prog || (has_sep prog && exists_ prog d)
      then (Exited returncode,
            if is_configure cmd then mkDisk true true (bin d) else d)
      else (NotStarted (no_such_file prog), d)
  end.

Definition host : Host disk :=
  mkHost disk name exists_ scan (fun _ _ => []) unlink remove_tree run
         (String.concat " ") (fun _ _ => false).

(** The same host with every program at hand: whatever the command line,
    the process starts. *)
Definition run_any (cmd : list string) (d : disk) : completed * disk :=
  (Exited returncode, if is_configure cmd then mkDisk true true (bin d) else d).

Definition equipped : Host disk :=
  mkHost disk name exists_ scan (fun _ _ => []) unlink remove_tree run_any
         (String.concat " ") (fun _ _ => false).

End WithPlatform.

Definition no_args : Args :=
  mkArgs None None None None false None None false false false.

End Sim.

(** ** What the specification says, in the terms of the model *)



(** Every process of a run ended with return code 0. *)
Definition all_exited_zero (t : list event) : Prop :=
  forall cmd c, In (Spawn cmd c) t -> c = Exited 0.

(** No removal of a run failed. *)
Definition no_failed_removal (t : list event) : Prop :=
  forall p e, ~ In (Remove p (Some e)) t /\ ~ In (Rmtree p (Some e)) t.

(** The specification's exit status. *)
Definition exit_status_reflects_run {W} (r : result unit * W * list event) : Prop :=
  exit_code (outcome r) = 0%Z <-> all_exited_zero (events r) /\ no_failed_removal (events r).





(** The characters fnmatch does not read as themselves. *)
Definition wildcard (c : ascii) : bool :=
  Ascii.eqb c "*" || Ascii.eqb c "?" || Ascii.eqb c "[".




Definition single (p : string) : list string := [p].

(** ** Further notions for the properties of the whole script *)

Definition is_removal (e : event) : bool :=
  match e with
  | Remove _ _ | Rmtree _ _ => true
  | _ => false
  end.

Definition is_spawn (e : event) : bool :=
  match e with
  | Spawn _ _ => true
  | _ => false
  end.

(** The removals attempted, in order. *)
Definition removals (t : list event) : list event := filter is_removal t.

(** Every event of the program, from every world, satisfies [P]. *)
Definition emits_only {W A} (P : event -> bool) (m : M W A) : Prop :=
  forall w, forallb P (events (m w)) = true.

(** The command line without its four toolchain options. *)
Definition without_overrides (args : Args) : Args :=
  mkArgs None None None None (clean args) (build args) (test args)
         (clear_cache args) (fmt args) (spell args).

Definition profile_flags (b : build_choice) : list string :=
  match b with
  | debug => DEBUG_FLAGS
  | release => RELEASE_FLAGS
  end.

(** The line [run_tests] prints before the [i]-th of [n] tests. *)
Definition announcement (i n : nat) (path : string) : string :=
  (SCRIPT_INDICATOR ++ (ESC ++ "[1;32m[INFO]" ++ ESC ++ "[0m") ++ " "
   ++ (String "010" "" ++ ESC ++ "[1;33m[test " ++ str_nat i ++ "/" ++ str_nat n
       ++ "]" ++ ESC ++ "[0m: " ++ path ++ "..."))%string.

(** A name that [test*] followed by the suffix of the platform matches, as
    fnmatch compares names on the platform. *)
Definition test_name {W} (host : Host W) (n : string) : Prop :=
  exists a, normcase host (chars n) = chars "test" ++ a ++ chars (BINARY_EXT host).

(** The files [command_format] is to find: those [os.walk] lists under the
    three source roots, each as directory, [/], file name. *)
Definition walked {W} (host : Host W) (w : W) (x : string) : Prop :=
  exists root d, In root [SRC_DIR; INCLUDE_DIR; TEST_DIR]
    /\ In d (os_walk host root w)
    /\ exists f, In f (snd d) /\ x = (fst d ++ "/" ++ f)%string.

(** A host like [Sim.equipped] on which one file cannot be executed. *)
Module Locked.

Definition denied (name : string) : OSError := mkOSError name "Permission denied".

Definition run (locked : string) (cmd : list string) (d : Sim.disk)
  : completed * Sim.disk :=
  match cmd with
  | prog :: _ =>
      if (prog =? locked)%string then (NotStarted (denied prog), d)
      else Sim.run_any 0 cmd d
  | [] => Sim.run_any 0 cmd d
  end.

Definition host (locked : string) : Host Sim.disk :=
  mkHost Sim.disk "posix" (Sim.exists_ "posix") (Sim.scan "posix") (fun _ _ => [])
         (Sim.unlink "posix") (Sim.remove_tree "posix") (run locked)
         (String.concat " ") (fun _ _ => false).

End Locked.

(** ** The run as a whole *)

(** Lines 9-14, the imports.  [import os] binds [os.name] to [posix] or to
    [nt], after the built-in module of the platform, and raises
    [ImportError] on a platform that has neither; nothing in the script
    catches it, so that there the script ends at line 11, before
    [os_choose] is defined and before the command line is read.
    [os_name host] names the platform: it is the value of [os.name] where
    the import succeeds. *)
Inductive started (W : Type) :=
| ImportFailed
| Ran (r : result unit * W * list event).
Arguments ImportFailed {W}.
Arguments Ran {W} r.

Definition recognised (name : string) : bool :=
  ((name =? "posix") || (name =? "nt"))%string.

Definition script {W} (host : Host W) (args : Args) (w : W) : started W :=
  if recognised (os_name host) then Ran (module_body host args w) else ImportFailed.

(** The two [match] statements that end the module body, and what
    [command_test] does after its build. *)
Definition build_action {W} (host : Host W) (g : Globals) (o : option build_choice)
  : M W unit :=
  match o with
  | Some debug => command_build host g DEBUG_FLAGS
  | Some release => command_build host g RELEASE_FLAGS
  | None => ret tt
  end.

Definition test_action {W} (host : Host W) (g : Globals) (o : option string)
  : M W unit :=
  match o with
  | Some pattern => command_test host g pattern
  | None => ret tt
  end.

Definition select_and_run {W} (host : Host W) (pattern : string) : M W unit :=
  if (pattern =? "all")%string then run_tests host None
  else
    exact <- ask (path_exists host (path_div host (BIN_DIR host) pattern)) ;;
    if exact then run_bin host pattern else run_tests host (Some pattern).

(** The events that raise an exception nothing in the script catches: a
    process that could not be started, a failed [os.remove].  (The
    [OSError] of [shutil.rmtree] is caught where it is raised.) *)
Definition fatal (e : event) : bool :=
  match e with
  | Spawn _ (NotStarted _) => true
  | Remove _ (Some _) => true
  | _ => false
  end.

(** A run in which every program it tried to start did start, and the
    cache file, if its removal was tried, was removed. *)
Definition unhindered (t : list event) : bool :=
  forallb (fun e => negb (fatal e)) t.

(** A program that raises only after a fatal event of its own. *)
Definition accountable {W A} (m : M W A) : Prop :=
  forall w, unhindered (events (m w)) = true -> exists a, outcome (m w) = Ok a.

(** The specification's build action: the generator and then the build
    when the build directory is absent, the build alone when it is
    present. *)
Definition build_invoked_in_both_cases {W} (host : Host W) (g : Globals)
  (flags : list string) (w : W) : Prop :=
  (path_exists host "./build" w = false ->
   spawned (events (command_build host g flags w)) = [configure_cmd g flags; build_cmd])
  /\ (path_exists host "./build" w = true ->
      spawned (events (command_build host g flags w)) = [build_cmd]).



(** ** The toolchain flags *)

Section Flags.

Context {W : Type} (host : Host W).

Lemma cmake_flags_when_given o set g :
  (forall v g', CMAKE_FLAGS (set v g') = CMAKE_FLAGS g') ->
  CMAKE_FLAGS (when_given o set g) = CMAKE_FLAGS g.
Proof. intros Hset. destruct o; simpl; auto. Qed.

(** The overrides rebind the [CURRENT_*] names and leave the list
    [CMAKE_FLAGS], built before the command line was read, as it was. *)
Lemma cmake_flags_ignore_overrides args g :
  CMAKE_FLAGS (apply_overrides args g) = CMAKE_FLAGS g.
Proof.
  unfold apply_overrides.
  repeat (rewrite cmake_flags_when_given; [ | reflexivity ]).
  reflexivity.
Qed.

Lemma overrides_rebind_linker args g v :
  linker args = Some v -> CURRENT_LINKER (apply_overrides args g) = v.
Proof.
  intros Hl. unfold apply_overrides. rewrite Hl. reflexivity.
Qed.

Lemma initial_globals_posix :
  os_name host = "posix" ->
  initial_globals host =
    mkGlobals POSIX_BUILDER POSIX_CPP_COMPILER POSIX_C_COMPILER POSIX_LINKER
      (toolchain_flags POSIX_BUILDER POSIX_CPP_COMPILER POSIX_C_COMPILER
         ++ linker_flags POSIX_LINKER).
Proof.
  intros Hn. unfold initial_globals, os_choose. rewrite Hn. reflexivity.
Qed.

Lemma initial_globals_other :
  os_name host <> "posix" ->
  initial_globals host =
    mkGlobals WIN_BUILDER WIN_CPP_COMPILER WIN_C_COMPILER WIN_LINKER
      (toolchain_flags WIN_BUILDER WIN_CPP_COMPILER WIN_C_COMPILER).
Proof.
  intros Hn. apply String.eqb_neq in Hn.
  unfold initial_globals, os_choose. rewrite Hn. reflexivity.
Qed.

(** Whatever the command line overrides, the flags handed to the generator
    are those of the platform. *)
Lemma cmake_flags_depend_on_platform_only args :
  CMAKE_FLAGS (apply_overrides args (initial_globals host)) =
    if (os_name host =? "posix")%string
    then [ "-G=Ninja"; "-DCMAKE_CXX_COMPILER=clang++"; "-DCMAKE_C_COMPILER=clang";
           "-DCMAKE_EXE_LINKER_FLAGS='-fuse-ld=mold'";
           "-DCMAKE_SHARED_LINKER_FLAGS='-fuse-ld=mold'" ]
    else [ "-G=Ninja"; "-DCMAKE_CXX_COMPILER=clang-cl"; "-DCMAKE_C_COMPILER=clang-cl" ].
Proof.
  rewrite cmake_flags_ignore_overrides.
  unfold initial_globals, os_choose.
  now destruct (os_name host =? "posix")%string.
Qed.

End Flags.

(** C1.  The claim: with a toolchain override on the command line, the
    generator is called with the overridden tool in the flag of that tool.
    The script at [--builder Make --cpp-compiler g++ --c-compiler gcc
    --linker lld --build] on a POSIX host without a build directory: the
    four names are rebound to the overrides, and the generator is still
    called with the flags of the platform defaults, since [CMAKE_FLAGS] was
    built before the command line was read. *)
Theorem overrides_not_in_configure_cmd :
  let host := Sim.host "posix" 0 in
  let args := mkArgs (Some "gcc") (Some "g++") (Some "lld") (Some "Make")
                     false (Some debug) None false false false in
  let g := apply_overrides args (initial_globals host) in
  (CURRENT_BUILDER g, CURRENT_CPP_COMPILER g, CURRENT_C_COMPILER g, CURRENT_LINKER g)
  = ("Make", "g++", "gcc", "lld")
  /\ spawned (events (module_body host args (Sim.mkDisk false false [])))
     = [ [ "cmake"; "-G=Ninja"; "-DCMAKE_CXX_COMPILER=clang++";
           "-DCMAKE_C_COMPILER=clang";
           "-DCMAKE_EXE_LINKER_FLAGS='-fuse-ld=mold'";
           "-DCMAKE_SHARED_LINKER_FLAGS='-fuse-ld=mold'";
           "-DCMAKE_BUILD_TYPE=Debug"; "-DPSH_DEBUG=ON";
           "-DPSH_ENABLE_LOGGING=ON"; "-DPSH_BUILD_TESTS=ON";
           "-S"; "."; "-B"; "build" ];
         [ "cmake"; "--build"; "build" ] ].
Proof. split; reflexivity. Qed.

(** C5.  The claim: the two linker flags are in the generator's command
    line exactly when the linker after the overrides is [mold].  The script
    at [--linker lld --build] on a POSIX host: the linker is [lld] and both
    flags are passed, naming [mold]; at [--linker mold --build] on a Windows
    host: the linker is [mold] and no linker flag is passed. *)
Theorem linker_flags_follow_default_linker :
  let lld := mkArgs None None (Some "lld") None false (Some debug) None false false false in
  let mold := mkArgs None None (Some "mold") None false (Some debug) None false false false in
  let posix := Sim.host "posix" 0 in
  let nt := Sim.host "nt" 0 in
  (CURRENT_LINKER (apply_overrides lld (initial_globals posix)) = "lld"
   /\ incl (linker_flags "mold")
           (hd [] (spawned (events (module_body posix lld (Sim.mkDisk false false []))))))
  /\ (CURRENT_LINKER (apply_overrides mold (initial_globals nt)) = "mold"
      /\ hd [] (spawned (events (module_body nt mold (Sim.mkDisk false false []))))
         = [ "cmake"; "-G=Ninja"; "-DCMAKE_CXX_COMPILER=clang-cl";
             "-DCMAKE_C_COMPILER=clang-cl";
             "-DCMAKE_BUILD_TYPE=Debug"; "-DPSH_DEBUG=ON";
             "-DPSH_ENABLE_LOGGING=ON"; "-DPSH_BUILD_TESTS=ON";
             "-S"; "."; "-B"; "build" ]).
Proof.
  repeat split.
  intros f Hf. vm_compute in Hf |- *. tauto.
Qed.

(** ** The profiles *)

Lemma configure_cmd_split g F :
  configure_cmd g F = ("cmake" :: CMAKE_FLAGS g) ++ F ++ ["-S"; "."; "-B"; BUILD_DIR].
Proof. reflexivity. Qed.



(** ** The platform *)

(** [os_choose] has no error path: where [os.name] is not [posix], each
    choice is the Windows one. *)
Lemma os_choose_off_posix (W : Type) (host : Host W) :
  os_name host <> "posix" ->
  (forall posix win, os_choose host posix win = win)
  /\ initial_globals host = initial_globals (Sim.host "nt" 0)
  /\ BINARY_EXT host = ".exe".
Proof.
  intros Hn. pose proof Hn as Hb. apply String.eqb_neq in Hb.
  split; [ | split ].
  - intros posix win. unfold os_choose. now rewrite Hb.
  - now rewrite initial_globals_other.
  - unfold BINARY_EXT, os_choose. now rewrite Hb.
Qed.

(** ** Running programs of the monad *)

Section Runs.

Context {W : Type}.

Lemma spawned_app t1 t2 : spawned (t1 ++ t2) = spawned t1 ++ spawned t2.
Proof.
  induction t1 as [ | e t1 IH ]; simpl; [ reflexivity | ].
  destruct e; simpl; now rewrite IH.
Qed.

Lemma bind_ok {A B} (m : M W A) (f : A -> M W B) w a w1 t1 :
  m w = (Ok a, w1, t1) ->
  bind m f w = (outcome (f a w1), world_after (f a w1), t1 ++ events (f a w1)).
Proof.
  intros Hm. unfold bind. rewrite Hm.
  destruct (f a w1) as [[r w2] t2]. reflexivity.
Qed.

Lemma bind_raise {A B} (m : M W A) (f : A -> M W B) w e w1 t1 :
  m w = (Raise e, w1, t1) -> bind m f w = (Raise e, w1, t1).
Proof. intros Hm. unfold bind. now rewrite Hm. Qed.

End Runs.

Create HintDb script discriminated.

(** ** The commands *)

Section Commands.

Context {W : Type} (host : Host W).

Lemma header_runs action w :
  exists line, @header W action w = (Ok tt, w, [Output line]).
Proof. eexists. reflexivity. Qed.

(** [sp_run] prints the command line and hands it to [subprocess.run]; it
    raises exactly when the process cannot be started. *)
Lemma sp_run_runs cmd w :
  exists line,
    sp_run host cmd w =
      match sp_dot_run host cmd w with
      | (Exited rc, w') => (Ok tt, w', [Output line; Spawn cmd (Exited rc)])
      | (NotStarted e, w') => (Raise e, w', [Output line; Spawn cmd (NotStarted e)])
      end.
Proof.
  eexists. unfold sp_run, log_command, bind, print, emit.
  destruct (sp_dot_run host cmd w) as [[rc | e] w']; reflexivity.
Qed.

Lemma spawned_sp_run cmd w : spawned (events (sp_run host cmd w)) = [cmd].
Proof.
  destruct (sp_run_runs cmd w) as [line E]. rewrite E.
  destruct (sp_dot_run host cmd w) as [[rc | e] w']; reflexivity.
Qed.

(** The processes of [command_build], whatever they return. *)
Lemma spawned_command_build g flags w :
  spawned (events (command_build host g flags w)) =
    if path_exists host "./build" w then [build_cmd]
    else match sp_dot_run host (configure_cmd g flags) w with
         | (Exited _, _) => [configure_cmd g flags; build_cmd]
         | (NotStarted _, _) => [configure_cmd g flags]
         end.
Proof.
  unfold command_build.
  rewrite (bind_ok _ _ w (path_exists host "./build" w) w []) by reflexivity.
  cbv beta. unfold events at 1. cbn [snd app].
  destruct (path_exists host "./build" w); cbn [negb].
  - rewrite (bind_ok _ _ w tt w []) by reflexivity.
    destruct (header_runs "Building project" w) as [l El].
    rewrite (bind_ok _ _ w tt w [Output l]) by exact El.
    unfold events at 1. cbn [snd app spawned].
    apply spawned_sp_run.
  - destruct (header_runs "Resolving third-party dependencies" w) as [l1 E1].
    destruct (header_runs "Generating the build directory" w) as [l2 E2].
    destruct (header_runs "Building project" w) as [l3 E3].
    destruct (sp_run_runs (configure_cmd g flags) w) as [lc Ec].
    destruct (sp_dot_run host (configure_cmd g flags) w) as [[rc | e] w1].
    + assert (Ecfg :
        (@header W "Resolving third-party dependencies" ;;
         @header W "Generating the build directory" ;;
         sp_run host (configure_cmd g flags)) w
        = (Ok tt, w1,
           [Output l1; Output l2; Output lc; Spawn (configure_cmd g flags) (Exited rc)])).
      { rewrite (bind_ok _ _ w tt w [Output l1]) by exact E1.
        rewrite (bind_ok _ _ w tt w [Output l2]) by exact E2.
        rewrite Ec. reflexivity. }
      rewrite (bind_ok _ _ w tt w1 _ Ecfg).
      destruct (header_runs "Building project" w1) as [l4 E4].
      rewrite (bind_ok _ _ w1 tt w1 [Output l4]) by exact E4.
      unfold events. cbn [snd app spawned]. fold (events (sp_run host build_cmd w1)).
      now rewrite spawned_sp_run.
    + assert (Ecfg :
        (@header W "Resolving third-party dependencies" ;;
         @header W "Generating the build directory" ;;
         sp_run host (configure_cmd g flags)) w
        = (Raise e, w1,
           [Output l1; Output l2; Output lc; Spawn (configure_cmd g flags) (NotStarted e)])).
      { rewrite (bind_ok _ _ w tt w [Output l1]) by exact E1.
        rewrite (bind_ok _ _ w tt w [Output l2]) by exact E2.
        rewrite Ec. reflexivity. }
      rewrite (bind_raise _ _ w e w1 _ Ecfg). reflexivity.
Qed.

End Commands.


(** ** The build action *)

Lemma events_bind_prefix {W A B} (m : M W A) (f : A -> M W B) w :
  exists t2, events (bind m f w) = events (m w) ++ t2.
Proof.
  destruct (m w) as [[[a | e] w1] t1] eqn:Em.
  - rewrite (bind_ok _ _ _ _ _ _ Em). now exists (events (f a w1)).
  - rewrite (bind_raise _ _ _ _ _ _ Em). exists []. unfold events. cbn [snd].
    now rewrite app_nil_r.
Qed.

Lemma configure_is_not_build g flags : configure_cmd g flags <> build_cmd.
Proof.
  intros E. apply (f_equal (@List.length string)) in E.
  rewrite configure_cmd_split, !length_app in E. simpl in E. lia.
Qed.

(** Where the generator cannot be started, [subprocess.run] raises and the
    build is not reached. *)
Lemma command_build_generator_not_started
  (W : Type) (host : Host W) (g : Globals) (flags : list string) (w : W) e w1 :
  path_exists host "./build" w = false ->
  sp_dot_run host (configure_cmd g flags) w = (NotStarted e, w1) ->
  spawned (events (command_build host g flags w)) = [configure_cmd g flags].
Proof.
  intros Hp Hrun. now rewrite spawned_command_build, Hp, Hrun.
Qed.

(** ** The test action *)

Lemma profile_flags_not_toolchain_flags (W : Type) (host : Host W) args f :
  In f (DEBUG_FLAGS ++ RELEASE_FLAGS) ->
  ~ In f (configure_cmd (apply_overrides args (initial_globals host)) []).
Proof.
  intros Hf.
  rewrite configure_cmd_split, cmake_flags_ignore_overrides.
  destruct (String.eqb_spec (os_name host) "posix") as [Hn | Hn].
  - rewrite (initial_globals_posix host Hn).
    simpl in Hf |- *.
    intuition (subst; discriminate).
  - rewrite (initial_globals_other host Hn).
    simpl in Hf |- *.
    intuition (subst; discriminate).
Qed.

(** C10.  In [command_test] with the build directory absent, the first
    process is the generator, called with [cmake], the toolchain flags,
    and the source and build directories; none of the flags of the Debug or
    of the Release bundle is in its command line. *)
Theorem test_configures_without_profile
  (W : Type) (host : Host W) (args : Args) (pattern : string) (w : W) :
  path_exists host "./build" w = false ->
  let g := apply_overrides args (initial_globals host) in
  let cfg := "cmake" :: CMAKE_FLAGS g ++ ["-S"; "."; "-B"; "build"] in
  hd_error (spawned (events (command_test host g pattern w))) = Some cfg
  /\ (forall f, In f (DEBUG_FLAGS ++ RELEASE_FLAGS) -> ~ In f cfg).
Proof.
  intros Hp g cfg.
  assert (Ecfg : cfg = configure_cmd g []) by reflexivity.
  split.
  - unfold command_test.
    destruct (events_bind_prefix (command_build host g [])
                (fun _ => if (pattern =? "all")%string then run_tests host None
                          else exact <- ask (path_exists host (path_div host (BIN_DIR host) pattern)) ;;
                               if exact then run_bin host pattern
                               else run_tests host (Some pattern)) w) as [t2 Et].
    rewrite Et, spawned_app, spawned_command_build, Hp, Ecfg.
    destruct (sp_dot_run host (configure_cmd g []) w) as [[rc | e] w1]; reflexivity.
  - intros f Hf. rewrite Ecfg. now apply profile_flags_not_toolchain_flags.
Qed.

Lemma test_configures_without_profile_witness :
  let host := Sim.host "posix" 0 in
  hd_error (spawned (events (command_test host (initial_globals host) "all"
                               (Sim.mkDisk false false ["test_a"]))))
  = Some [ "cmake"; "-G=Ninja"; "-DCMAKE_CXX_COMPILER=clang++";
           "-DCMAKE_C_COMPILER=clang";
           "-DCMAKE_EXE_LINKER_FLAGS='-fuse-ld=mold'";
           "-DCMAKE_SHARED_LINKER_FLAGS='-fuse-ld=mold'";
           "-S"; "."; "-B"; "build" ].
Proof.
  exact (proj1 (test_configures_without_profile _ (Sim.host "posix" 0) Sim.no_args
                  "all" (Sim.mkDisk false false ["test_a"]) eq_refl)).
Defined.

Lemma chars_app (a b : string) : chars (a ++ b) = chars a ++ chars b.
Proof. induction a as [ | c a IH ]; simpl; [ reflexivity | now rewrite IH ]. Qed.


Lemma path_div_longer (W : Type) (host : Host W) dir name :
  path_div host dir name <> name.
Proof.
  intros E. apply (f_equal chars) in E. apply (f_equal (@List.length ascii)) in E.
  unfold path_div, sep in E. rewrite !chars_app, !length_app in E.
  destruct (is_posix host); simpl in E; lia.
Qed.

(** On an exact match [command_test] hands the pattern itself to [run_bin],
    not the path under [BIN_DIR] whose existence it has just tested. *)
Lemma exact_match_spawns_pattern
  (W : Type) (host : Host W) (g : Globals) (pattern : string) (w : W) :
  pattern <> "all" ->
  outcome (command_build host g [] w) = Ok tt ->
  path_exists host (path_div host (BIN_DIR host) pattern)
    (world_after (command_build host g [] w)) = true ->
  spawned (events (command_test host g pattern w))
  = spawned (events (command_build host g [] w)) ++ [single pattern]
  /\ single pattern <> single (path_div host (BIN_DIR host) pattern).
Proof.
  intros Hall Hok Hex. split.
  - unfold command_test.
    destruct (command_build host g [] w) as [[[[] | e] w1] t1] eqn:Eb;
      [ | discriminate ].
    rewrite (bind_ok _ _ _ _ _ _ Eb).
    apply String.eqb_neq in Hall. rewrite Hall.
    unfold world_after in Hex. cbn [fst snd] in Hex.
    rewrite (bind_ok _ _ w1 true w1 []) by (unfold ask; now rewrite Hex).
    unfold events at 1 2. cbn [snd app].
    rewrite spawned_app. f_equal.
    unfold run_bin. apply spawned_sp_run.
  - intros E. injection E as E. symmetry in E. now apply path_div_longer in E.
Qed.

(** C3.  The claim: when a file named by the pattern exists under the
    binary directory, the test command runs that file.  The script at
    [--test test_beta] on a POSIX host where [build/bin/test_beta] exists:
    after the build it starts a process from the bare word [test_beta],
    which names a program of the search path, not the file under
    [build/bin]; the sibling path through [run_tests] starts the binaries
    by their paths, [build/bin/test_beta] among them.  On a host whose search path has no [test_beta]
    the script ends with the exception of [subprocess.run]. *)
Theorem exact_match_runs_bare_word :
  let host := Sim.host "posix" 0 in
  let d := Sim.mkDisk true true ["test_alpha"; "test_beta"] in
  let args := mkArgs None None None None false None (Some "test_beta")
                     false false false in
  path_exists host (path_div host (BIN_DIR host) "test_beta") d = true
  /\ spawned (events (module_body host args d))
     = [ ["cmake"; "--build"; "build"]; ["test_beta"] ]
  /\ outcome (module_body host args d) = Raise (Sim.no_such_file "test_beta")
  /\ sorted_tests host None d = ["build/bin/test_alpha"; "build/bin/test_beta"].
Proof. repeat split; vm_compute; reflexivity. Qed.

(** ** Clean and clear-cache *)

(** [command_clean] catches the [OSError] of [shutil.rmtree]: it returns,
    and the failure is printed with the file name and the message of the
    operating system. *)
Lemma command_clean_reports_and_returns (W : Type) (host : Host W) (w : W) :
  exists w' t,
    command_clean host w = (Ok tt, w', t)
    /\ forall e, In (Rmtree "./build" (Some e)) t ->
         In (SCRIPT_INDICATOR ++ ESC ++ "[1;31m[ERROR]" ++ ESC ++ "[0m"
             ++ " Unable to remove build directory due to error: ["
             ++ filename e ++ "] " ++ strerror e)%string
            (printed t).
Proof.
  unfold command_clean.
  destruct (header_runs (W := W) "Removing existing build directory" w) as [l El].
  rewrite (bind_ok _ _ w tt w [Output l]) by exact El.
  unfold try_except, shutil_rmtree.
  destruct (rmtree host "./build" w) as [[e | ] w'].
  - exists w'. eexists. split; [ reflexivity | ].
    intros e' [He | [He | [He | []]]]; try discriminate.
    injection He as He. subst e'. simpl. auto.
  - exists w'. eexists. split; [ reflexivity | ].
    intros e' [He | [He | []]]; discriminate.
Qed.

(** [command_clear_cache] lets the [OSError] of [os.remove] through. *)
Lemma command_clear_cache_raises (W : Type) (host : Host W) (w : W) e w' :
  os_remove host (CMAKE_CACHE_PATH host) w = (Some e, w') ->
  outcome (command_clear_cache host w) = Raise e
  /\ spawned (events (command_clear_cache host w)) = [].
Proof.
  intros Hr. unfold command_clear_cache.
  destruct (header_runs (W := W) "Cleaning CMake cache" w) as [l El].
  rewrite (bind_ok _ _ w tt w [Output l]) by exact El.
  unfold remove. rewrite Hr. split; reflexivity.
Qed.

(** C6.  The claim: a failure of clean or of clear-cache is reported and
    the following actions still run.  The script at [--clean --clear-cache
    --build --test] on a POSIX host without a build directory: the failure
    of clean is printed and the script goes on; the failure of clear-cache
    (no cache file) is an [OSError] that nothing catches, the script ends
    with exit status 1 and neither the build nor the test has started a
    process. *)
Theorem missing_cache_aborts_script :
  let host := Sim.host "posix" 0 in
  let d := Sim.mkDisk false false ["test_alpha"] in
  let args := mkArgs None None None None true (Some debug) (Some "all")
                     true false false in
  outcome (module_body host args d) = Raise (Sim.no_such_file "build/CMakeCache.txt")
  /\ exit_code (outcome (module_body host args d)) = 1%Z
  /\ spawned (events (module_body host args d)) = []
  /\ In (Rmtree "./build" (Some (Sim.no_such_file "./build")))
        (events (module_body host args d))
  /\ In (Remove "build/CMakeCache.txt" (Some (Sim.no_such_file "build/CMakeCache.txt")))
        (events (module_body host args d)).
Proof. repeat split; vm_compute; tauto. Qed.

(** ** The exit status *)

(** C2, counterexample.  [--test] on a POSIX host without a build directory
    on which every process returns 1: the generator and the build return 1,
    the test binary is run all the same, and the exit status of the script
    is 0. *)
Lemma failing_processes_exit_zero :
  let r := module_body (Sim.host "posix" 1)
             (mkArgs None None None None false None (Some "all") false false false)
             (Sim.mkDisk false false ["test_a"]) in
  ~ exit_status_reflects_run r
  /\ exit_code (outcome r) = 0%Z
  /\ spawned (events r)
     = [ configure_cmd (initial_globals (Sim.host "posix" 1)) [];
         build_cmd; ["build/bin/test_a"] ].
Proof.
  split; [ | split; reflexivity ].
  intros [Hzero _].
  destruct (Hzero eq_refl) as [Hall _].
  specialize (Hall build_cmd (Exited 1)).
  discriminate Hall. vm_compute. tauto.
Qed.

(** ** fnmatch on plain patterns *)

Section Fnmatch.

Context {W : Type} (host : Host W).

Lemma translate_literals l rest :
  forallb (fun c => negb (wildcard c)) l = true ->
  translate 0 (l ++ rest) = map Lit l ++ translate 0 rest.
Proof.
  induction l as [ | c l IH ]; intros Hl; [ reflexivity | ].
  simpl in Hl. apply andb_true_iff in Hl as [Hc Hl].
  unfold wildcard in Hc. rewrite !negb_orb, !andb_true_iff, !negb_true_iff in Hc.
  destruct Hc as [[Hstar Hany] Hopen].
  simpl. rewrite Hstar, Hany, Hopen. now rewrite IH.
Qed.

Lemma translate_star rest : translate 0 ("*"%char :: rest) = Star :: translate 0 rest.
Proof. reflexivity. Qed.

Lemma matches_literals p ts s :
  matches host (map Lit p ++ ts) s = true
  <-> exists s', s = p ++ s' /\ matches host ts s' = true.
Proof.
  revert s. induction p as [ | c p IH ]; intros s; simpl.
  - split; [ intros H; now exists s | intros (s' & -> & H); exact H ].
  - destruct s as [ | d s ].
    + split; [ discriminate | intros (s' & E & _); discriminate ].
    + rewrite andb_true_iff, IH. split.
      * intros [Hc (s' & -> & H)]. apply Ascii.eqb_eq in Hc. subst d. now exists s'.
      * intros (s' & E & H). injection E as -> ->.
        split; [ apply Ascii.eqb_refl | now exists s' ].
Qed.

Lemma matches_star ts s :
  matches host (Star :: ts) s = true
  <-> exists a s', s = a ++ s' /\ matches host ts s' = true.
Proof.
  simpl. induction s as [ | c s IH ].
  - rewrite orb_false_r. split.
    + intros H. now exists [], [].
    + intros (a & s' & E & H). symmetry in E. apply app_eq_nil in E as [-> ->]. exact H.
  - rewrite orb_true_iff, IH. split.
    + intros [H | (a & s' & -> & H)].
      * now exists [], (c :: s).
      * now exists (c :: a), s'.
    + intros (a & s' & E & H). destruct a as [ | c' a ].
      * left. simpl in E. now subst s'.
      * right. injection E as -> ->. now exists a, s'.
Qed.

Lemma matches_end s : matches host [] s = true <-> s = [].
Proof. destruct s; simpl; split; intros H; congruence. Qed.


End Fnmatch.

(** ** Discovery *)

Section Discovery.

Context {W : Type} (host : Host W).

Lemma normcase_app a b : normcase host (a ++ b) = normcase host a ++ normcase host b.
Proof.
  unfold normcase, nt_normcase. destruct (is_posix host); [ reflexivity | apply map_app ].
Qed.

Lemma normcase_test_star : normcase host (chars "test*") = chars "test*".
Proof. unfold normcase. now destruct (is_posix host). Qed.


Lemma normcase_ext : normcase host (chars (BINARY_EXT host)) = chars (BINARY_EXT host).
Proof.
  unfold normcase, BINARY_EXT, os_choose, is_posix.
  now destruct (os_name host =? "posix")%string.
Qed.

Lemma ext_literal :
  forallb (fun c => negb (wildcard c)) (chars (BINARY_EXT host)) = true.
Proof.
  unfold BINARY_EXT, os_choose. now destruct (os_name host =? "posix")%string.
Qed.





Lemma hidden_normcase n :
  ishidden n = true -> exists rest, normcase host (chars n) = "."%char :: rest.
Proof.
  destruct n as [ | c n ]; [ discriminate | ].
  simpl. intros Hc. apply Ascii.eqb_eq in Hc. subst c.
  unfold normcase, nt_normcase. destruct (is_posix host); eexists; reflexivity.
Qed.





Lemma sorted_tests_sorted pattern w :
  Sorted (fun p q => String.leb p q = true) (sorted_tests host pattern w).
Proof. unfold sorted_tests. apply StrSort.Sorted_sort. Qed.



End Discovery.

(** ** Running the discovered tests *)

Section RunTests.

Context {W : Type} (host : Host W).

Lemma log_info_runs s w : exists line, @log_info W s w = (Ok tt, w, [Output line]).
Proof. eexists. reflexivity. Qed.

(** The binaries are started in the order of the list, each from its own
    name, until one cannot be started; when [run_each] returns, all of them
    have been. *)
Lemma spawned_run_each tests idx n w :
  (exists k, spawned (events (run_each host tests idx n w)) = map single (firstn k tests))
  /\ (outcome (run_each host tests idx n w) = Ok tt ->
      spawned (events (run_each host tests idx n w)) = map single tests).
Proof.
  revert idx w. induction tests as [ | p tests IH ]; intros idx w.
  - split; [ now exists 0 | reflexivity ].
  - cbn [run_each].
    destruct (log_info_runs
                (String "010" "" ++ ESC ++ "[1;33m[test " ++ str_nat (idx + 1) ++ "/"
                 ++ str_nat n ++ "]" ++ ESC ++ "[0m: " ++ p ++ "...")%string w) as [l El].
    rewrite (bind_ok _ _ w tt w [Output l]) by exact El.
    destruct (sp_run_runs host [p] w) as [lc Ec].
    unfold run_bin.
    destruct (sp_dot_run host [p] w) as [[rc | e] w1] eqn:Er.
    + rewrite (bind_ok _ _ w tt w1 _ Ec).
      destruct (IH (S idx) w1) as [[k Ek] Hall].
      unfold events, outcome in Ek, Hall |- *. cbn [fst snd app spawned].
      split.
      * exists (S k). cbn [firstn map]. now rewrite Ek.
      * intros Hok. cbn [map]. now rewrite (Hall Hok).
    + rewrite (bind_raise _ _ w e w1 _ Ec).
      split; [ now exists 1 | discriminate ].
Qed.

Lemma spawned_run_tests pattern w :
  (exists k, spawned (events (run_tests host pattern w))
             = map single (firstn k (sorted_tests host pattern w)))
  /\ (outcome (run_tests host pattern w) = Ok tt ->
      spawned (events (run_tests host pattern w))
      = map single (sorted_tests host pattern w)).
Proof.
  unfold run_tests.
  destruct (header_runs (W := W) "Running tests" w) as [l El].
  rewrite (bind_ok _ _ w tt w [Output l]) by exact El.
  rewrite (bind_ok _ _ w (sorted_tests host pattern w) w []) by reflexivity.
  pose proof (spawned_run_each (sorted_tests host pattern w) 0
                (List.length (sorted_tests host pattern w)) w) as Heach.
  unfold events, outcome in Heach |- *. cbn [fst snd app spawned].
  exact Heach.
Qed.


End RunTests.


(** * Further properties of the script *)

(** ** The toolchain options *)

Lemma command_build_reads_flags_only (W : Type) (host : Host W) g g' flags :
  CMAKE_FLAGS g = CMAKE_FLAGS g' ->
  command_build host g flags = command_build host g' flags.
Proof. intros E. unfold command_build, configure_cmd. now rewrite E. Qed.

Lemma command_test_reads_flags_only (W : Type) (host : Host W) g g' pattern :
  CMAKE_FLAGS g = CMAKE_FLAGS g' ->
  command_test host g pattern = command_test host g' pattern.
Proof.
  intros E. unfold command_test.
  now rewrite (command_build_reads_flags_only W host g g' [] E).
Qed.

(** X1.  The four toolchain options ([--builder], [--c-compiler],
    [--cpp-compiler], [--linker]) change nothing of what the script does:
    with or without them it prints the same lines, starts the same
    processes with the same command lines, leaves the same world and ends
    the same way. *)
Theorem toolchain_options_change_nothing
  (W : Type) (host : Host W) (args : Args) (w : W) :
  module_body host args w = module_body host (without_overrides args) w.
Proof.
  unfold module_body. cbn [without_overrides fmt spell clean clear_cache build test].
  set (g := apply_overrides args (initial_globals host)).
  set (g' := apply_overrides (without_overrides args) (initial_globals host)).
  assert (E : CMAKE_FLAGS g = CMAKE_FLAGS g').
  { unfold g, g'. now rewrite !cmake_flags_ignore_overrides. }
  rewrite (command_build_reads_flags_only W host g g' DEBUG_FLAGS E).
  rewrite (command_build_reads_flags_only W host g g' RELEASE_FLAGS E).
  destruct (test args) as [pattern | ]; [ | reflexivity ].
  now rewrite (command_test_reads_flags_only W host g g' pattern E).
Qed.

(** ** What the actions never do *)

Section Emits.

Context {W : Type} (P : event -> bool).

Lemma emits_only_ret {A} (a : A) : emits_only P (@ret W A a).
Proof. intros w. reflexivity. Qed.

Lemma emits_only_ask {A} (q : W -> A) : emits_only P (@ask W A q).
Proof. intros w. reflexivity. Qed.

Lemma emits_only_emit e : P e = true -> emits_only P (@emit W e).
Proof. intros He w. unfold emit, events. simpl. now rewrite He. Qed.

Lemma emits_only_bind {A B} (m : M W A) (f : A -> M W B) :
  emits_only P m -> (forall a, emits_only P (f a)) -> emits_only P (bind m f).
Proof.
  intros Hm Hf w. specialize (Hm w).
  destruct (m w) as [[[a | e] w1] t1] eqn:Em.
  - rewrite (bind_ok _ _ _ _ _ _ Em). unfold events at 1. cbn [snd].
    rewrite forallb_app. unfold events in Hm. cbn [snd] in Hm.
    now rewrite Hm, (Hf a w1).
  - now rewrite (bind_raise _ _ _ _ _ _ Em).
Qed.

Lemma emits_only_try {A} (m : M W A) (h : OSError -> M W A) :
  emits_only P m -> (forall e, emits_only P (h e)) -> emits_only P (try_except m h).
Proof.
  intros Hm Hh w. specialize (Hm w). unfold try_except.
  destruct (m w) as [[[a | e] w1] t1]; [ exact Hm | ].
  specialize (Hh e w1). destruct (h e w1) as [[r w2] t2].
  unfold events in *. cbn [snd] in *. rewrite forallb_app. now rewrite Hm, Hh.
Qed.

Lemma emits_only_if {A} (b : bool) (m1 m2 : M W A) :
  emits_only P m1 -> emits_only P m2 -> emits_only P (if b then m1 else m2).
Proof. now destruct b. Qed.

End Emits.

#[export] Hint Resolve emits_only_ret emits_only_ask emits_only_bind
  emits_only_try emits_only_if : script.

Section Never.

Context {W : Type} (host : Host W).

Lemma print_emits P s : P (Output s) = true -> emits_only P (@print W s).
Proof. intros HP. now apply emits_only_emit. Qed.

Lemma header_emits P action :
  (forall s, P (Output s) = true) -> emits_only P (@header W action).
Proof. intros HP. unfold header. now apply print_emits. Qed.

Lemma log_info_emits P s :
  (forall l, P (Output l) = true) -> emits_only P (@log_info W s).
Proof. intros HP. unfold log_info. now apply print_emits. Qed.

Lemma log_error_emits P s :
  (forall l, P (Output l) = true) -> emits_only P (@log_error W s).
Proof. intros HP. unfold log_error. now apply print_emits. Qed.

Lemma sp_run_emits P cmd :
  (forall l, P (Output l) = true) -> (forall c r, P (Spawn c r) = true) ->
  emits_only P (sp_run host cmd).
Proof.
  intros HO HS w. destruct (sp_run_runs host cmd w) as [line E]. rewrite E.
  destruct (sp_dot_run host cmd w) as [[rc | e] w']; unfold events; simpl;
    now rewrite HO, HS.
Qed.

Lemma run_each_emits P tests idx n :
  (forall l, P (Output l) = true) -> (forall c r, P (Spawn c r) = true) ->
  emits_only P (run_each host tests idx n).
Proof.
  intros HO HS. revert idx. induction tests as [ | p tests IH ]; intros idx; simpl.
  - apply emits_only_ret.
  - apply emits_only_bind; [ now apply log_info_emits | intros _ ].
    apply emits_only_bind; [ now apply sp_run_emits | intros _; apply IH ].
Qed.

(** The actions that start processes print and spawn, and remove nothing. *)
Lemma run_tests_emits P pattern :
  (forall l, P (Output l) = true) -> (forall c r, P (Spawn c r) = true) ->
  emits_only P (run_tests host pattern).
Proof.
  intros HO HS. unfold run_tests.
  auto using header_emits, run_each_emits with script.
Qed.

Lemma command_format_emits P :
  (forall l, P (Output l) = true) -> (forall c r, P (Spawn c r) = true) ->
  emits_only P (command_format host).
Proof.
  intros HO HS. unfold command_format.
  auto using header_emits, sp_run_emits with script.
Qed.

Lemma command_spell_emits P :
  (forall l, P (Output l) = true) -> (forall c r, P (Spawn c r) = true) ->
  emits_only P (command_spell host).
Proof.
  intros HO HS. unfold command_spell.
  auto using header_emits, sp_run_emits with script.
Qed.

Lemma command_build_emits P g flags :
  (forall l, P (Output l) = true) -> (forall c r, P (Spawn c r) = true) ->
  emits_only P (command_build host g flags).
Proof.
  intros HO HS. unfold command_build.
  auto 8 using header_emits, sp_run_emits with script.
Qed.

Lemma command_test_emits P g pattern :
  (forall l, P (Output l) = true) -> (forall c r, P (Spawn c r) = true) ->
  emits_only P (command_test host g pattern).
Proof.
  intros HO HS. unfold command_test, run_bin.
  auto 8 using command_build_emits, run_tests_emits, sp_run_emits with script.
Qed.

(** The removing actions print and remove, and start no process. *)
Lemma command_clean_emits P :
  (forall l, P (Output l) = true) -> (forall p r, P (Rmtree p r) = true) ->
  emits_only P (command_clean host).
Proof.
  intros HO HR. unfold command_clean.
  apply emits_only_bind; [ now apply header_emits | intros _ ].
  apply emits_only_try; [ | intros e; now apply log_error_emits ].
  intros w. unfold shutil_rmtree.
  destruct (rmtree host "./build" w) as [[e | ] w']; unfold events; simpl;
    now rewrite HR.
Qed.

Lemma command_clear_cache_emits P :
  (forall l, P (Output l) = true) -> (forall p r, P (Remove p r) = true) ->
  emits_only P (command_clear_cache host).
Proof.
  intros HO HR. unfold command_clear_cache.
  apply emits_only_bind; [ now apply header_emits | intros _ ].
  intros w. unfold remove.
  destruct (os_remove host (CMAKE_CACHE_PATH host) w) as [[e | ] w'];
    unfold events; simpl; now rewrite HR.
Qed.

Lemma removals_nil t : forallb (fun e => negb (is_removal e)) t = true -> removals t = [].
Proof.
  induction t as [ | e t IH ]; [ reflexivity | ].
  simpl. intros H. apply andb_true_iff in H as [He Ht].
  unfold removals. simpl. apply negb_true_iff in He. rewrite He. now apply IH.
Qed.

Lemma spawned_nil t : forallb (fun e => negb (is_spawn e)) t = true -> spawned t = [].
Proof.
  induction t as [ | e t IH ]; [ reflexivity | ].
  simpl. intros H. apply andb_true_iff in H as [He Ht].
  destruct e; simpl in He |- *; try discriminate; now apply IH.
Qed.

End Never.

(** X2.  Without [--clean] and [--clear-cache] the script removes nothing:
    whatever else is asked for, on every host and from every world, no
    [os.remove] and no [shutil.rmtree] is attempted. *)
Theorem nothing_removed_unless_asked
  (W : Type) (host : Host W) (args : Args) (w : W) :
  clean args = false -> clear_cache args = false ->
  removals (events (module_body host args w)) = [].
Proof.
  intros Hc Hcc. apply removals_nil.
  set (P := fun e => negb (is_removal e)).
  assert (HO : forall l, P (Output l) = true) by reflexivity.
  assert (HS : forall c r, P (Spawn c r) = true) by reflexivity.
  assert (Hall : emits_only P (module_body host args)); [ | apply Hall ].
  unfold module_body, when. rewrite Hc, Hcc.
  repeat (apply emits_only_bind; [ | intros _ ]).
  - apply emits_only_if; [ now apply command_format_emits | apply emits_only_ret ].
  - apply emits_only_if; [ now apply command_spell_emits | apply emits_only_ret ].
  - apply emits_only_ret.
  - apply emits_only_ret.
  - destruct (build args) as [[ | ] | ];
      [ now apply command_build_emits | now apply command_build_emits
      | apply emits_only_ret ].
  - destruct (test args); [ now apply command_test_emits | apply emits_only_ret ].
Qed.

Lemma nothing_removed_unless_asked_witness :
  removals (events (module_body (Sim.host "posix" 1)
                      (mkArgs None None None None false (Some release) (Some "all")
                              false true true)
                      (Sim.mkDisk false false ["test_a"]))) = [].
Proof.
  apply (nothing_removed_unless_asked _ (Sim.host "posix" 1)); reflexivity.
Defined.

(** X3.  Without [--fmt], [--spell], [--build] and [--test] the script
    starts no process: [--clean] and [--clear-cache] only remove and print,
    whether they succeed or fail. *)
Theorem no_process_unless_asked
  (W : Type) (host : Host W) (args : Args) (w : W) :
  fmt args = false -> spell args = false -> build args = None -> test args = None ->
  spawned (events (module_body host args w)) = [].
Proof.
  intros Hf Hs Hb Ht. apply spawned_nil.
  set (P := fun e => negb (is_spawn e)).
  assert (HO : forall l, P (Output l) = true) by reflexivity.
  assert (Hall : emits_only P (module_body host args)); [ | apply Hall ].
  unfold module_body, when. rewrite Hf, Hs, Hb, Ht.
  repeat (apply emits_only_bind; [ | intros _ ]); try apply emits_only_ret.
  - apply emits_only_if; [ now apply command_clean_emits | apply emits_only_ret ].
  - apply emits_only_if; [ now apply command_clear_cache_emits | apply emits_only_ret ].
Qed.

Lemma no_process_unless_asked_witness :
  spawned (events (module_body (Sim.host "posix" 0)
                     (mkArgs None None None None true None None true false false)
                     (Sim.mkDisk true true ["test_a"]))) = [].
Proof.
  apply (no_process_unless_asked _ (Sim.host "posix" 0)); reflexivity.
Defined.

(** ** Clean *)

(** X4.  [command_clean] always returns.  It attempts one removal, of the
    tree [./build], leaves the world [shutil.rmtree] leaves, and starts no
    process; when the removal fails, the file name and the message of the
    error are printed, and when it succeeds only the header is. *)
Theorem clean_returns_and_reports (W : Type) (host : Host W) (w : W) :
  let r := command_clean host w in
  outcome r = Ok tt
  /\ world_after r = snd (rmtree host "./build" w)
  /\ removals (events r) = [Rmtree "./build" (fst (rmtree host "./build" w))]
  /\ spawned (events r) = []
  /\ (forall e, fst (rmtree host "./build" w) = Some e ->
        List.length (printed (events r)) = 2
        /\ In (SCRIPT_INDICATOR ++ (ESC ++ "[1;31m[ERROR]" ++ ESC ++ "[0m") ++ " "
               ++ ("Unable to remove build directory due to error: ["
                   ++ filename e ++ "] " ++ strerror e))%string
              (printed (events r)))
  /\ (fst (rmtree host "./build" w) = None -> List.length (printed (events r)) = 1).
Proof.
  unfold command_clean.
  destruct (header_runs (W := W) "Removing existing build directory" w) as [l El].
  rewrite (bind_ok _ _ w tt w [Output l]) by exact El.
  unfold try_except, shutil_rmtree.
  destruct (rmtree host "./build" w) as [[e | ] w']; cbn [fst snd].
  - repeat split; try reflexivity; try discriminate.
    match goal with H : Some _ = Some _ |- _ => injection H as <- end.
    simpl. auto.
  - repeat split; try reflexivity; discriminate.
Qed.

(** ** Build *)

(** X5.  Once the build directory exists, the profile is not looked at:
    [command_build] with the Debug flags and with the Release flags print
    the same, start the same single process, the build, and end the same.
    A directory configured for one profile is built as it is when the
    other is asked for. *)
Theorem profile_ignored_once_configured
  (W : Type) (host : Host W) (g : Globals) (flags flags' : list string) (w : W) :
  path_exists host "./build" w = true ->
  command_build host g flags w = command_build host g flags' w
  /\ spawned (events (command_build host g flags w)) = [build_cmd].
Proof.
  intros Hp. split.
  - unfold command_build.
    rewrite !(bind_ok _ _ w true w []) by (unfold ask; now rewrite Hp).
    reflexivity.
  - now rewrite spawned_command_build, Hp.
Qed.

Lemma profile_ignored_once_configured_witness :
  let host := Sim.host "posix" 0 in
  command_build host (initial_globals host) DEBUG_FLAGS (Sim.mkDisk true true [])
  = command_build host (initial_globals host) RELEASE_FLAGS (Sim.mkDisk true true []).
Proof.
  exact (proj1 (profile_ignored_once_configured _ (Sim.host "posix" 0)
                  (initial_globals (Sim.host "posix" 0)) DEBUG_FLAGS RELEASE_FLAGS
                  (Sim.mkDisk true true []) eq_refl)).
Defined.

(** X6.  The test action begins with the whole build action, run without
    profile flags: its processes are those of [command_build()] followed by
    those of the tests; with the build directory present the first process
    is the build; and when the build action raises (a program could not be
    started), the test action ends there with the same error and no test
    is looked for. *)
Theorem test_builds_first
  (W : Type) (host : Host W) (g : Globals) (pattern : string) (w : W) :
  (exists rest,
      spawned (events (command_test host g pattern w))
      = spawned (events (command_build host g [] w)) ++ rest)
  /\ (path_exists host "./build" w = true ->
      hd_error (spawned (events (command_test host g pattern w))) = Some build_cmd)
  /\ (forall e, outcome (command_build host g [] w) = Raise e ->
        events (command_test host g pattern w) = events (command_build host g [] w)
        /\ outcome (command_test host g pattern w) = Raise e).
Proof.
  assert (Hpre : exists t2,
             events (command_test host g pattern w)
             = events (command_build host g [] w) ++ t2).
  { unfold command_test. apply events_bind_prefix. }
  destruct Hpre as [t2 Et].
  split; [ | split ].
  - exists (spawned t2). now rewrite Et, spawned_app.
  - intros Hp. rewrite Et, spawned_app, spawned_command_build, Hp. reflexivity.
  - intros e He. unfold command_test.
    destruct (command_build host g [] w) as [[[a | e'] wb] tb] eqn:Eb;
      [ discriminate | ].
    unfold outcome in He. cbn [fst] in He. injection He as ->.
    rewrite (bind_raise _ _ _ _ _ _ Eb). split; reflexivity.
Qed.

Lemma test_builds_first_witness :
  hd_error (spawned (events (command_test (Sim.host "posix" 0)
                               (initial_globals (Sim.host "posix" 0)) "all"
                               (Sim.mkDisk true true ["test_a"]))))
  = Some build_cmd.
Proof.
  exact (proj1 (proj2 (test_builds_first _ (Sim.host "posix" 0)
                         (initial_globals (Sim.host "posix" 0)) "all"
                         (Sim.mkDisk true true ["test_a"]))) eq_refl).
Defined.

(** ** All tests *)

Section AllTests.

Context {W : Type} (host : Host W).

Lemma matches_test_star ext s :
  forallb (fun c => negb (wildcard c)) ext = true ->
  matches host (translate 0 (chars "test*" ++ ext)) s = true
  <-> exists a, s = chars "test" ++ a ++ ext.
Proof.
  intros Hext.
  change (chars "test*") with (chars "test" ++ ["*"%char]).
  rewrite <- app_assoc.
  rewrite (translate_literals (chars "test")) by reflexivity.
  cbn [app]. rewrite translate_star.
  rewrite <- (app_nil_r ext) at 1.
  rewrite (translate_literals ext) by exact Hext.
  cbn [translate]. rewrite app_nil_r.
  rewrite (matches_literals host (chars "test")). split.
  - intros (s1 & -> & H1).
    apply matches_star in H1 as (a & s2 & -> & H2).
    rewrite <- (app_nil_r (map Lit ext)) in H2.
    apply matches_literals in H2 as (s3 & -> & H3).
    apply matches_end in H3. subst s3. rewrite app_nil_r. now exists a.
  - intros (a & ->). eexists. split; [ reflexivity | ].
    apply matches_star. exists a, ext. split; [ reflexivity | ].
    rewrite <- (app_nil_r (map Lit ext)).
    apply matches_literals. exists []. split; [ now rewrite app_nil_r | reflexivity ].
Qed.

Lemma test_name_not_hidden n : test_name host n -> ishidden n = false.
Proof.
  intros (a & E).
  destruct (ishidden n) eqn:Hh; [ | reflexivity ].
  destruct (hidden_normcase host n Hh) as [rest Er].
  rewrite Er in E. discriminate.
Qed.

Lemma in_sorted_tests_all w p :
  In p (sorted_tests host None w)
  <-> exists n, p = path_div host (BIN_DIR host) n
                /\ In n (listdir host (BIN_DIR host) w) /\ test_name host n.
Proof.
  assert (Hsel : forall n,
             In n (glob1 host (BIN_DIR host) (search_of host None) w)
             <-> In n (listdir host (BIN_DIR host) w) /\ test_name host n).
  { intros n. unfold glob1, fnmatch_filter, test_name, search_of.
    change (ishidden ("test*" ++ BINARY_EXT host)%string) with false. cbv iota.
    rewrite !filter_In, chars_app, normcase_app, normcase_test_star, normcase_ext.
    rewrite (matches_test_star _ _ (ext_literal host)). split.
    - tauto.
    - intros [Hin Hn]. repeat split; try assumption.
      now rewrite (test_name_not_hidden n Hn). }
  unfold sorted_tests, glob. split.
  - intros Hp.
    apply (Permutation_in _ (Permutation_sym (StrSort.Permuted_sort _))) in Hp.
    apply in_map_iff in Hp as (n & <- & Hn).
    exists n. split; [ reflexivity | ]. now apply Hsel.
  - intros (n & -> & Hn).
    apply (Permutation_in _ (StrSort.Permuted_sort _)).
    apply in_map. now apply Hsel.
Qed.

Lemma command_test_all g w w1 t1 :
  command_build host g [] w = (Ok tt, w1, t1) ->
  events (command_test host g "all" w) = t1 ++ events (run_tests host None w1)
  /\ outcome (command_test host g "all" w) = outcome (run_tests host None w1).
Proof.
  intros Eb. unfold command_test.
  rewrite (bind_ok _ _ _ _ _ _ Eb). split; reflexivity.
Qed.

End AllTests.

(** X7.  [--test all] (and [--test] alone, which argparse reads as [all])
    never takes the exact-match path, whether or not the binary directory
    holds a file named [all]: after the build, the tests are exactly the
    entries of the binary directory whose name is [test], any characters,
    and the suffix of the platform, as fnmatch compares names on the
    platform; they are sorted by path and started in that order. *)
Theorem test_all_discovers_every_test_binary
  (W : Type) (host : Host W) (g : Globals) (w : W) :
  outcome (command_build host g [] w) = Ok tt ->
  let w1 := world_after (command_build host g [] w) in
  let tests := sorted_tests host None w1 in
  (forall p, In p tests
             <-> exists n, p = path_div host (BIN_DIR host) n
                           /\ In n (listdir host (BIN_DIR host) w1)
                           /\ test_name host n)
  /\ Sorted (fun p q => String.leb p q = true) tests
  /\ (exists k, spawned (events (command_test host g "all" w))
                = spawned (events (command_build host g [] w))
                  ++ map single (firstn k tests))
  /\ (outcome (command_test host g "all" w) = Ok tt ->
      spawned (events (command_test host g "all" w))
      = spawned (events (command_build host g [] w)) ++ map single tests).
Proof.
  intros Hok w1 tests.
  destruct (command_build host g [] w) as [[[[] | e] wb] tb] eqn:Eb; [ | discriminate ].
  unfold world_after in w1. cbn [fst snd] in w1.
  destruct (command_test_all host g w w1 tb Eb) as [Eev Eout].
  rewrite Eev, Eout.
  unfold events at 2 4. cbn [snd]. rewrite spawned_app.
  destruct (spawned_run_tests host None w1) as [[k Ek] Hfull].
  split; [ | split; [ | split ] ].
  - intros p. apply in_sorted_tests_all.
  - apply sorted_tests_sorted.
  - exists k. now rewrite Ek.
  - intros Hret. now rewrite (Hfull Hret).
Qed.

Lemma test_all_discovers_every_test_binary_witness :
  let host := Sim.equipped "posix" 3 in
  spawned (events (command_test host (initial_globals host) "all"
                     (Sim.mkDisk true true
                        ["all"; "test_beta"; ".test_hidden"; "mytest"; "test_alpha"])))
  = [ build_cmd; ["build/bin/test_alpha"]; ["build/bin/test_beta"] ].
Proof.
  pose (host := Sim.equipped "posix" 3).
  refine (proj2 (proj2 (proj2
            (test_all_discovers_every_test_binary _ host (initial_globals host)
               (Sim.mkDisk true true
                  ["all"; "test_beta"; ".test_hidden"; "mytest"; "test_alpha"])
               _))) _); reflexivity.
Defined.

Section Progress.

Context {W : Type} (host : Host W).

Lemma printed_app t1 t2 : printed (t1 ++ t2) = printed t1 ++ printed t2.
Proof.
  induction t1 as [ | e t1 IH ]; simpl; [ reflexivity | ].
  destruct e; simpl; now rewrite IH.
Qed.

Lemma events_of {A} (r : result A) (w : W) t : events (r, w, t) = t.
Proof. reflexivity. Qed.

Lemma outcome_of {A} (r : result A) (w : W) t : outcome (r, w, t) = r.
Proof. reflexivity. Qed.

Lemma run_each_step p tests idx n w :
  exists lc,
    run_each host (p :: tests) idx n w =
      match sp_dot_run host [p] w with
      | (Exited rc, w1) =>
          (outcome (run_each host tests (S idx) n w1),
           world_after (run_each host tests (S idx) n w1),
           [Output (announcement (idx + 1) n p); Output lc; Spawn [p] (Exited rc)]
           ++ events (run_each host tests (S idx) n w1))
      | (NotStarted e, w1) =>
          (Raise e, w1,
           [Output (announcement (idx + 1) n p); Output lc; Spawn [p] (NotStarted e)])
      end.
Proof.
  destruct (sp_run_runs host [p] w) as [lc Ec]. exists lc.
  cbn [run_each]. unfold run_bin.
  rewrite (bind_ok _ _ w tt w [Output (announcement (idx + 1) n p)]) by reflexivity.
  destruct (sp_dot_run host [p] w) as [[rc | e] w1].
  - now rewrite (bind_ok _ _ w tt w1 _ Ec).
  - now rewrite (bind_raise _ _ w e w1 _ Ec).
Qed.

Lemma run_each_raises tests idx n w e :
  outcome (run_each host tests idx n w) = Raise e ->
  exists k p t,
    nth_error tests k = Some p
    /\ events (run_each host tests idx n w) = t ++ [Spawn (single p) (NotStarted e)]
    /\ spawned (events (run_each host tests idx n w)) = map single (firstn (S k) tests)
    /\ spawned t = map single (firstn k tests).
Proof.
  revert idx w. induction tests as [ | p tests IH ]; intros idx w; [ discriminate | ].
  destruct (run_each_step p tests idx n w) as [lc E]. rewrite E. clear E.
  destruct (sp_dot_run host [p] w) as [[rc | e0] w1].
  - rewrite outcome_of, !events_of. intros Hr.
    destruct (IH (S idx) w1 Hr) as (k & q & t & Hq & Et & Es & Est).
    exists (S k), q,
      ([Output (announcement (idx + 1) n p); Output lc; Spawn [p] (Exited rc)] ++ t).
    repeat split.
    + exact Hq.
    + rewrite Et. now rewrite <- app_assoc.
    + rewrite spawned_app, Es. reflexivity.
    + rewrite spawned_app, Est. reflexivity.
  - rewrite outcome_of, !events_of. intros Hr. injection Hr as ->.
    exists 0, p, [Output (announcement (idx + 1) n p); Output lc].
    repeat split.
Qed.

Lemma run_each_announces tests idx n w :
  outcome (run_each host tests idx n w) = Ok tt ->
  forall k p, nth_error tests k = Some p ->
    In (announcement (idx + k + 1) n p) (printed (events (run_each host tests idx n w))).
Proof.
  revert idx w. induction tests as [ | q tests IH ]; intros idx w Hok k p Hk.
  - destruct k; discriminate.
  - destruct (run_each_step q tests idx n w) as [lc E]. rewrite E in Hok |- *. clear E.
    destruct (sp_dot_run host [q] w) as [[rc | e0] w1]; [ | discriminate ].
    rewrite outcome_of in Hok. rewrite events_of, printed_app.
    destruct k as [ | k ].
    + injection Hk as ->. rewrite Nat.add_0_r. apply in_or_app. left. now left.
    + apply in_or_app. right.
      replace (idx + S k + 1) with (S idx + k + 1) by lia.
      now apply IH.
Qed.

Lemma run_tests_unfolds pattern w :
  exists l,
    run_tests host pattern w =
      (outcome (run_each host (sorted_tests host pattern w) 0
                  (List.length (sorted_tests host pattern w)) w),
       world_after (run_each host (sorted_tests host pattern w) 0
                      (List.length (sorted_tests host pattern w)) w),
       [Output l]
       ++ events (run_each host (sorted_tests host pattern w) 0
                    (List.length (sorted_tests host pattern w)) w)).
Proof.
  destruct (header_runs (W := W) "Running tests" w) as [l El]. exists l.
  unfold run_tests.
  rewrite (bind_ok _ _ w tt w [Output l]) by exact El.
  rewrite (bind_ok _ _ w (sorted_tests host pattern w) w []) by reflexivity.
  reflexivity.
Qed.

End Progress.

(** X9.  A test binary that cannot be started ends the run: when
    [run_tests] raises, the error is the one [subprocess.run] raised for
    one of the discovered binaries, starting that binary is the last thing
    the script did, the binaries before it in the order of the paths have
    been started and none after it. *)
Theorem tests_stop_at_first_launch_failure
  (W : Type) (host : Host W) (pattern : option string) (w : W) (e : OSError) :
  outcome (run_tests host pattern w) = Raise e ->
  exists k p t,
    nth_error (sorted_tests host pattern w) k = Some p
    /\ events (run_tests host pattern w) = t ++ [Spawn (single p) (NotStarted e)]
    /\ spawned (events (run_tests host pattern w))
       = map single (firstn (S k) (sorted_tests host pattern w)).
Proof.
  destruct (run_tests_unfolds host pattern w) as [l E]. rewrite E. clear E.
  rewrite outcome_of, !events_of. intros Hr.
  destruct (run_each_raises host _ _ _ _ _ Hr) as (k & p & t & Hp & Et & Es & _).
  exists k, p, ([Output l] ++ t). repeat split.
  - exact Hp.
  - rewrite Et. now rewrite <- app_assoc.
  - rewrite spawned_app, Es. reflexivity.
Qed.

Lemma tests_stop_at_first_launch_failure_witness :
  spawned (events (run_tests (Locked.host "build/bin/test_b") None
                     (Sim.mkDisk true true ["test_c"; "test_b"; "test_a"])))
  = [ ["build/bin/test_a"]; ["build/bin/test_b"] ].
Proof.
  destruct (tests_stop_at_first_launch_failure _ (Locked.host "build/bin/test_b") None
              (Sim.mkDisk true true ["test_c"; "test_b"; "test_a"])
              (Locked.denied "build/bin/test_b") eq_refl)
    as (k & p & t & Hp & Ht & Hs).
  destruct k as [ | [ | k ] ];
    [ vm_compute in Hs; discriminate | exact Hs | vm_compute in Hs; discriminate ].
Defined.

(** X10.  When [run_tests] returns, every discovered binary has been
    announced before it ran, the one at place [k] of the sorted list (from
    0) as [test k+1/n], where [n] is the number of discovered binaries,
    followed by its path. *)
Theorem tests_announced_by_rank
  (W : Type) (host : Host W) (pattern : option string) (w : W) :
  outcome (run_tests host pattern w) = Ok tt ->
  forall k p,
    nth_error (sorted_tests host pattern w) k = Some p ->
    In (announcement (k + 1) (List.length (sorted_tests host pattern w)) p)
       (printed (events (run_tests host pattern w))).
Proof.
  destruct (run_tests_unfolds host pattern w) as [l E]. rewrite E. clear E.
  rewrite outcome_of, events_of. intros Hok k p Hk.
  rewrite printed_app. apply in_or_app. right.
  now apply (run_each_announces host _ 0 _ w Hok k p).
Qed.

Lemma tests_announced_by_rank_witness :
  In (announcement 2 2 "build/bin/test_b")
     (printed (events (run_tests (Sim.equipped "posix" 0) None
                         (Sim.mkDisk true true ["test_b"; "test_a"])))).
Proof.
  apply (tests_announced_by_rank _ (Sim.equipped "posix" 0) None
           (Sim.mkDisk true true ["test_b"; "test_a"]) eq_refl 1 "build/bin/test_b").
  reflexivity.
Defined.

(** ** Headers *)

Lemma length_append (a b : string) :
  String.length (a ++ b) = String.length a + String.length b.
Proof. induction a as [ | c a IH ]; simpl; [ reflexivity | now rewrite IH ]. Qed.

Lemma length_fill c n : String.length (fill c n) = n.
Proof. induction n as [ | n IH ]; simpl; [ reflexivity | now rewrite IH ]. Qed.

(** X11.  A header is the title between two spaces, centred in a bar of
    dashes between the two colour codes: the dashes on the left are as many
    as on the right or one fewer, and the bar is 80 columns wide, or as
    wide as the spaced title when that is longer, in which case no dash is
    printed. *)
Theorem header_bar_is_centred (W : Type) (action : string) (w : W) :
  exists l r,
    @header W action w
    = (Ok tt, w,
       [Output (ESC ++ "[1;35m"
                ++ (fill "-" l ++ (" " ++ action ++ " ") ++ fill "-" r)
                ++ ESC ++ "[0m")%string])
    /\ l <= r <= l + 1
    /\ String.length (fill "-" l ++ (" " ++ action ++ " ") ++ fill "-" r)%string
       = Nat.max 80 (String.length action + 2)
    /\ (80 <= String.length action + 2 -> l = 0 /\ r = 0).
Proof.
  set (title := (" " ++ action ++ " ")%string).
  assert (Hlen : String.length title = String.length action + 2).
  { unfold title. rewrite !length_append. simpl. lia. }
  exists (Nat.div (80 - String.length title) 2),
         (80 - String.length title - Nat.div (80 - String.length title) 2).
  split; [ reflexivity | ].
  rewrite !length_append, !length_fill, Hlen.
  pose proof (Nat.div_mod_eq (80 - (String.length action + 2)) 2) as Hdiv.
  pose proof (Nat.mod_upper_bound (80 - (String.length action + 2)) 2) as Hmod.
  repeat split; lia.
Qed.

(** ** Format *)

Lemma in_sources_in (W : Type) (host : Host W) root w x :
  In x (sources_in host root w)
  <-> exists d, In d (os_walk host root w)
                /\ exists f, In f (snd d) /\ x = (fst d ++ "/" ++ f)%string.
Proof.
  unfold sources_in. rewrite in_flat_map. split.
  - intros (d & Hd & Hx). apply in_map_iff in Hx as (f & <- & Hf).
    exists d. split; [ exact Hd | now exists f ].
  - intros (d & Hd & f & Hf & ->). exists d. split; [ exact Hd | ].
    apply in_map_iff. now exists f.
Qed.

(** X13.  [command_format] starts one process, [clang-format -i] followed
    by the files to format, and removes nothing.  The files are exactly
    those [os.walk] lists under [src], [include] and [tests], each named by
    its directory, a [/] (on every platform) and its file name; when the
    walks list no file, [clang-format -i] is run on no file. *)
Theorem format_passes_every_walked_file (W : Type) (host : Host W) (w : W) :
  exists files,
    spawned (events (command_format host w)) = [ "clang-format" :: "-i" :: files ]
    /\ (forall x, In x files <-> walked host w x)
    /\ ((forall root, os_walk host root w = []) -> files = [])
    /\ removals (events (command_format host w)) = [].
Proof.
  exists (get_all_sources host w).
  split; [ | split; [ | split ] ].
  - unfold command_format.
    destruct (header_runs (W := W) "Formatting all source and header files" w)
      as [l El].
    rewrite (bind_ok _ _ w tt w [Output l]) by exact El.
    rewrite (bind_ok _ _ w (get_all_sources host w) w []) by reflexivity.
    rewrite !events_of. cbn [app spawned]. apply spawned_sp_run.
  - intros x. unfold get_all_sources, walked.
    rewrite !in_app_iff, !in_sources_in. split.
    + intros [(d & Hd & Hf) | [(d & Hd & Hf) | (d & Hd & Hf)]].
      * exists SRC_DIR, d. simpl. auto.
      * exists INCLUDE_DIR, d. simpl. auto.
      * exists TEST_DIR, d. simpl. auto.
    + intros (root & d & [<- | [<- | [<- | []]]] & Hd & Hf).
      * left. now exists d.
      * right. left. now exists d.
      * right. right. now exists d.
  - intros Hempty. unfold get_all_sources, sources_in. now rewrite !Hempty.
  - apply removals_nil. now apply (command_format_emits host).
Qed.

(** ** Clean and build together *)

Lemma command_clean_runs (W : Type) (host : Host W) (w : W) :
  exists t,
    command_clean host w = (Ok tt, snd (rmtree host "./build" w), t)
    /\ spawned t = [].
Proof.
  unfold command_clean.
  destruct (header_runs (W := W) "Removing existing build directory" w) as [l El].
  rewrite (bind_ok _ _ w tt w [Output l]) by exact El.
  unfold try_except, shutil_rmtree.
  destruct (rmtree host "./build" w) as [[e | ] w']; eexists; split; reflexivity.
Qed.

(** X14.  [--clean] is done before [--build]: when [./build] does not exist
    once [shutil.rmtree] is over (it removed the tree, or there was none),
    the first process of [--clean --build] is the generator, called with
    the flags of the profile asked for, so that the project is configured
    afresh. *)
Theorem clean_then_build_configures_afresh
  (W : Type) (host : Host W) (args : Args) (w : W) (b : build_choice) :
  fmt args = false -> spell args = false ->
  clean args = true -> clear_cache args = false ->
  build args = Some b ->
  path_exists host "./build" (snd (rmtree host "./build" w)) = false ->
  hd_error (spawned (events (module_body host args w)))
  = Some (configure_cmd (apply_overrides args (initial_globals host)) (profile_flags b)).
Proof.
  intros Hf Hs Hc Hcc Hb Hp.
  unfold module_body. rewrite Hf, Hs, Hc, Hcc, Hb. cbn [when].
  set (g := apply_overrides args (initial_globals host)).
  replace (match b with
           | debug => command_build host g DEBUG_FLAGS
           | release => command_build host g RELEASE_FLAGS
           end) with (command_build host g (profile_flags b)) by now destruct b.
  destruct (command_clean_runs W host w) as (t & Ec & Et).
  rewrite (bind_ok _ _ w tt w []) by reflexivity.
  rewrite (bind_ok _ _ w tt w []) by reflexivity.
  rewrite (bind_ok _ _ w tt _ t) by exact Ec.
  rewrite (bind_ok _ _ _ tt _ []) by reflexivity.
  rewrite !events_of. cbn [app].
  destruct (events_bind_prefix (command_build host g (profile_flags b))
              (fun _ => match test args with
                        | Some pattern => command_test host g pattern
                        | None => ret tt
                        end) (snd (rmtree host "./build" w))) as [t2 E2].
  rewrite E2, !spawned_app, Et, spawned_command_build, Hp. cbn [app].
  now destruct (sp_dot_run host (configure_cmd g (profile_flags b))
                  (snd (rmtree host "./build" w))) as [[rc | e] w1].
Qed.

Lemma clean_then_build_configures_afresh_witness :
  let host := Sim.host "posix" 0 in
  hd_error (spawned (events (module_body host
                               (mkArgs None None None None true (Some release) None
                                       false false false)
                               (Sim.mkDisk true true ["test_a"]))))
  = Some (configure_cmd (initial_globals host) RELEASE_FLAGS).
Proof.
  exact (clean_then_build_configures_afresh _ (Sim.host "posix" 0)
           (mkArgs None None None None true (Some release) None false false false)
           (Sim.mkDisk true true ["test_a"]) release
           eq_refl eq_refl eq_refl eq_refl eq_refl eq_refl).
Defined.

(** * Runs without a fatal event *)

Section Accountable.

Context {W : Type}.

Lemma unhindered_app t1 t2 : unhindered (t1 ++ t2) = unhindered t1 && unhindered t2.
Proof. apply forallb_app. Qed.

Lemma world_after_of {A} (r : result A) (w : W) t : world_after (r, w, t) = w.
Proof. reflexivity. Qed.

(** What follows an accountable program in a run without a fatal event is
    run, in the world the program leaves. *)
Lemma accountable_step {A B} (m : M W A) (f : A -> M W B) w :
  accountable m ->
  unhindered (events (bind m f w)) = true ->
  exists a,
    outcome (m w) = Ok a
    /\ events (bind m f w) = events (m w) ++ events (f a (world_after (m w)))
    /\ outcome (bind m f w) = outcome (f a (world_after (m w)))
    /\ world_after (bind m f w) = world_after (f a (world_after (m w)))
    /\ unhindered (events (m w)) = true
    /\ unhindered (events (f a (world_after (m w)))) = true.
Proof.
  intros Hm Hun. specialize (Hm w).
  destruct (m w) as [[[a | e] w1] t1] eqn:Em.
  - rewrite (bind_ok _ _ _ _ _ _ Em) in Hun |- *.
    rewrite events_of, outcome_of, world_after_of in *.
    rewrite unhindered_app in Hun. apply andb_true_iff in Hun as [H1 H2].
    exists a. repeat split; assumption.
  - rewrite (bind_raise _ _ _ _ _ _ Em) in Hun.
    destruct (Hm Hun) as [a Ha]. discriminate Ha.
Qed.

Lemma accountable_ret {A} (a : A) : accountable (@ret W A a).
Proof. intros w _. now exists a. Qed.

Lemma accountable_ask {A} (q : W -> A) : accountable (@ask W A q).
Proof. intros w _. now exists (q w). Qed.

Lemma accountable_emit e : accountable (@emit W e).
Proof. intros w _. now exists tt. Qed.

Lemma accountable_bind {A B} (m : M W A) (f : A -> M W B) :
  accountable m -> (forall a, accountable (f a)) -> accountable (bind m f).
Proof.
  intros Hm Hf w Hun.
  destruct (accountable_step m f w Hm Hun) as (a & _ & _ & Eo & _ & _ & Hun2).
  rewrite Eo. now apply Hf.
Qed.

Lemma accountable_try {A} (m : M W A) (h : OSError -> M W A) :
  (forall e, accountable (h e)) -> accountable (try_except m h).
Proof.
  intros Hh w. unfold try_except.
  destruct (m w) as [[[a | e] w1] t1].
  - intros _. now exists a.
  - specialize (Hh e w1). destruct (h e w1) as [[r w2] t2].
    rewrite events_of, outcome_of in *. rewrite unhindered_app.
    intros Hun. apply andb_true_iff in Hun as [_ H2]. now apply Hh.
Qed.

Lemma accountable_if {A} (b : bool) (m1 m2 : M W A) :
  accountable m1 -> accountable m2 -> accountable (if b then m1 else m2).
Proof. now destruct b. Qed.

End Accountable.

#[export] Hint Resolve accountable_ret accountable_ask accountable_emit
  accountable_bind accountable_try accountable_if : script.

Section AccountableCommands.

Context {W : Type} (host : Host W).

Lemma accountable_header action : accountable (@header W action).
Proof. unfold header, print. apply accountable_emit. Qed.

Lemma accountable_log_info s : accountable (@log_info W s).
Proof. unfold log_info, print. apply accountable_emit. Qed.

Lemma accountable_log_error s : accountable (@log_error W s).
Proof. unfold log_error, print. apply accountable_emit. Qed.

Lemma accountable_sp_run cmd : accountable (sp_run host cmd).
Proof.
  intros w. destruct (sp_run_runs host cmd w) as [line E]. rewrite E.
  destruct (sp_dot_run host cmd w) as [[rc | e] w'].
  - intros _. now exists tt.
  - discriminate.
Qed.

Lemma accountable_remove path : accountable (remove host path).
Proof.
  intros w. unfold remove.
  destruct (os_remove host path w) as [[e | ] w'].
  - discriminate.
  - intros _. now exists tt.
Qed.

Lemma accountable_run_each tests idx n : accountable (run_each host tests idx n).
Proof.
  revert idx. induction tests as [ | p tests IH ]; intros idx; simpl.
  - apply accountable_ret.
  - apply accountable_bind; [ apply accountable_log_info | intros _ ].
    apply accountable_bind; [ apply accountable_sp_run | intros _; apply IH ].
Qed.

Lemma accountable_run_tests pattern : accountable (run_tests host pattern).
Proof.
  unfold run_tests.
  auto using accountable_header, accountable_run_each with script.
Qed.

Lemma accountable_command_format : accountable (command_format host).
Proof.
  unfold command_format. auto using accountable_header, accountable_sp_run with script.
Qed.

Lemma accountable_command_spell : accountable (command_spell host).
Proof.
  unfold command_spell. auto using accountable_header, accountable_sp_run with script.
Qed.

Lemma accountable_command_clean : accountable (command_clean host).
Proof.
  unfold command_clean.
  auto using accountable_header, accountable_log_error with script.
Qed.

Lemma accountable_command_clear_cache : accountable (command_clear_cache host).
Proof.
  unfold command_clear_cache.
  auto using accountable_header, accountable_remove with script.
Qed.

Lemma accountable_command_build g flags : accountable (command_build host g flags).
Proof.
  unfold command_build.
  auto 8 using accountable_header, accountable_sp_run with script.
Qed.

Lemma accountable_select_and_run pattern : accountable (select_and_run host pattern).
Proof.
  unfold select_and_run, run_bin.
  auto 8 using accountable_run_tests, accountable_sp_run with script.
Qed.

Lemma command_test_steps g pattern :
  command_test host g pattern
  = (command_build host g [] ;; select_and_run host pattern).
Proof. reflexivity. Qed.

Lemma accountable_command_test g pattern : accountable (command_test host g pattern).
Proof.
  rewrite command_test_steps.
  auto using accountable_command_build, accountable_select_and_run with script.
Qed.

Lemma accountable_when b m : accountable m -> accountable (@when W b m).
Proof. intros Hm. unfold when. apply accountable_if; [ exact Hm | apply accountable_ret ]. Qed.

Lemma accountable_build_action g o : accountable (build_action host g o).
Proof.
  destruct o as [[ | ] | ]; simpl;
    [ apply accountable_command_build | apply accountable_command_build
    | apply accountable_ret ].
Qed.

Lemma accountable_test_action g o : accountable (test_action host g o).
Proof.
  destruct o; simpl; [ apply accountable_command_test | apply accountable_ret ].
Qed.

Lemma module_body_steps args :
  module_body host args
  = (when (fmt args) (command_format host) ;;
     when (spell args) (command_spell host) ;;
     when (clean args) (command_clean host) ;;
     when (clear_cache args) (command_clear_cache host) ;;
     build_action host (apply_overrides args (initial_globals host)) (build args) ;;
     test_action host (apply_overrides args (initial_globals host)) (test args)).
Proof. reflexivity. Qed.

(** In a run without a fatal event the actions are run one after the
    other, each in the world the one before it left, and the module body
    ends without an exception. *)
Lemma unhindered_run_steps args w :
  unhindered (events (module_body host args w)) = true ->
  let g := apply_overrides args (initial_globals host) in
  let r1 := when (fmt args) (command_format host) w in
  let r2 := when (spell args) (command_spell host) (world_after r1) in
  let r3 := when (clean args) (command_clean host) (world_after r2) in
  let r4 := when (clear_cache args) (command_clear_cache host) (world_after r3) in
  let r5 := build_action host g (build args) (world_after r4) in
  let r6 := test_action host g (test args) (world_after r5) in
  outcome (module_body host args w) = Ok tt
  /\ events (module_body host args w)
     = events r1 ++ events r2 ++ events r3 ++ events r4 ++ events r5 ++ events r6
  /\ world_after (module_body host args w) = world_after r6
  /\ unhindered (events r5) = true
  /\ unhindered (events r6) = true.
Proof.
  rewrite module_body_steps. intros Hun g r1 r2 r3 r4 r5 r6.
  subst g r1 r2 r3 r4 r5 r6.
  destruct (accountable_step _ _ w
              (accountable_when _ _ accountable_command_format) Hun)
    as ([] & _ & E1 & O1 & W1 & _ & Hun1).
  rewrite E1, O1, W1. clear E1 O1 W1.
  destruct (accountable_step _ _ _
              (accountable_when _ _ accountable_command_spell) Hun1)
    as ([] & _ & E2 & O2 & W2 & _ & Hun2).
  rewrite E2, O2, W2. clear E2 O2 W2.
  destruct (accountable_step _ _ _
              (accountable_when _ _ accountable_command_clean) Hun2)
    as ([] & _ & E3 & O3 & W3 & _ & Hun3).
  rewrite E3, O3, W3. clear E3 O3 W3.
  destruct (accountable_step _ _ _
              (accountable_when _ _ accountable_command_clear_cache) Hun3)
    as ([] & _ & E4 & O4 & W4 & _ & Hun4).
  rewrite E4, O4, W4. clear E4 O4 W4.
  destruct (accountable_step _ _ _ (accountable_build_action _ (build args)) Hun4)
    as ([] & _ & E5 & O5 & W5 & Hun5 & Hun6).
  rewrite E5, O5, W5. clear E5 O5 W5.
  destruct (accountable_test_action _ (test args) _ Hun6) as [[] O6].
  repeat split; assumption.
Qed.

(** [command_build] that returns has run the build; where the generator
    cannot be started it raises. *)
Lemma command_build_outcome g flags w :
  outcome (command_build host g flags w) =
    if path_exists host "./build" w
    then match fst (sp_dot_run host build_cmd w) with
         | Exited _ => Ok tt
         | NotStarted e => Raise e
         end
    else match sp_dot_run host (configure_cmd g flags) w with
         | (Exited _, w1) =>
             match fst (sp_dot_run host build_cmd w1) with
             | Exited _ => Ok tt
             | NotStarted e => Raise e
             end
         | (NotStarted e, _) => Raise e
         end.
Proof.
  assert (Hbuild : forall w0,
             outcome ((@header W "Building project" ;; sp_run host build_cmd) w0)
             = match fst (sp_dot_run host build_cmd w0) with
               | Exited _ => Ok tt
               | NotStarted e => Raise e
               end).
  { intros w0. destruct (header_runs (W := W) "Building project" w0) as [l El].
    rewrite (bind_ok _ _ w0 tt w0 [Output l]) by exact El. rewrite outcome_of.
    destruct (sp_run_runs host build_cmd w0) as [lc Ec]. rewrite Ec.
    now destruct (sp_dot_run host build_cmd w0) as [[rc | e] w']. }
  unfold command_build.
  rewrite (bind_ok _ _ w (path_exists host "./build" w) w []) by reflexivity.
  rewrite outcome_of.
  destruct (path_exists host "./build" w); cbn [negb].
  - rewrite (bind_ok _ _ w tt w []) by reflexivity. rewrite outcome_of. apply Hbuild.
  - destruct (header_runs (W := W) "Resolving third-party dependencies" w) as [l1 E1].
    destruct (header_runs (W := W) "Generating the build directory" w) as [l2 E2].
    destruct (sp_run_runs host (configure_cmd g flags) w) as [lc Ec].
    destruct (sp_dot_run host (configure_cmd g flags) w) as [[rc | e] w1].
    + assert (Ecfg :
        (@header W "Resolving third-party dependencies" ;;
         @header W "Generating the build directory" ;;
         sp_run host (configure_cmd g flags)) w
        = (Ok tt, w1,
           [Output l1; Output l2; Output lc; Spawn (configure_cmd g flags) (Exited rc)])).
      { rewrite (bind_ok _ _ w tt w [Output l1]) by exact E1.
        rewrite (bind_ok _ _ w tt w [Output l2]) by exact E2.
        rewrite Ec. reflexivity. }
      rewrite (bind_ok _ _ w tt w1 _ Ecfg). rewrite outcome_of. apply Hbuild.
    + assert (Ecfg :
        (@header W "Resolving third-party dependencies" ;;
         @header W "Generating the build directory" ;;
         sp_run host (configure_cmd g flags)) w
        = (Raise e, w1,
           [Output l1; Output l2; Output lc; Spawn (configure_cmd g flags) (NotStarted e)])).
      { rewrite (bind_ok _ _ w tt w [Output l1]) by exact E1.
        rewrite (bind_ok _ _ w tt w [Output l2]) by exact E2.
        rewrite Ec. reflexivity. }
      now rewrite (bind_raise _ _ w e w1 _ Ecfg).
Qed.

Lemma build_cmd_spawned_when_returns g flags w a :
  outcome (command_build host g flags w) = Ok a ->
  In build_cmd (spawned (events (command_build host g flags w))).
Proof.
  rewrite command_build_outcome, spawned_command_build.
  destruct (path_exists host "./build" w); [ intros _; now left | ].
  destruct (sp_dot_run host (configure_cmd g flags) w) as [[rc | e] w1];
    [ intros _; right; now left | discriminate ].
Qed.

End AccountableCommands.

(** ** The exit status, revisited *)

(** C2, amended.  The exit status does not depend on the return code of any
    process.  In every run in which each program the script tried to start
    did start and the cache file, if its removal was tried, was removed,
    the exit status is 0, whatever the processes returned and whether or
    not clean failed; every requested action has been run, in the order
    format, spell, clean, clear-cache, build, test, each in the world the
    one before it left; and the test action, when asked for, has run its
    own build and, after it and whatever the generator and the build
    returned, the selection and the run of the tests. *)
Theorem exit_code_ignores_return_codes
  (W : Type) (host : Host W) (args : Args) (w : W) :
  unhindered (events (module_body host args w)) = true ->
  let g := apply_overrides args (initial_globals host) in
  let r1 := when (fmt args) (command_format host) w in
  let r2 := when (spell args) (command_spell host) (world_after r1) in
  let r3 := when (clean args) (command_clean host) (world_after r2) in
  let r4 := when (clear_cache args) (command_clear_cache host) (world_after r3) in
  let r5 := build_action host g (build args) (world_after r4) in
  let r6 := test_action host g (test args) (world_after r5) in
  exit_code (outcome (module_body host args w)) = 0%Z
  /\ events (module_body host args w)
     = events r1 ++ events r2 ++ events r3 ++ events r4 ++ events r5 ++ events r6
  /\ world_after (module_body host args w) = world_after r6
  /\ (forall pattern, test args = Some pattern ->
        let rb := command_build host g [] (world_after r5) in
        outcome rb = Ok tt
        /\ events r6
           = events rb ++ events (select_and_run host pattern (world_after rb))).
Proof.
  intros Hun g r1 r2 r3 r4 r5 r6.
  destruct (unhindered_run_steps host args w Hun) as (Ho & He & Hw & _ & Hun6).
  fold g r1 r2 r3 r4 r5 r6 in He, Hw, Hun6.
  split; [ now rewrite Ho | ].
  split; [ exact He | ].
  split; [ exact Hw | ].
  intros pattern Hp rb. subst r6. rewrite Hp in Hun6 |- *. cbn [test_action] in Hun6 |- *.
  rewrite command_test_steps in Hun6 |- *.
  destruct (accountable_step _ _ _ (accountable_command_build host g []) Hun6)
    as ([] & Orb & Erb & _).
  split; [ exact Orb | exact Erb ].
Qed.

Lemma exit_code_ignores_return_codes_witness :
  exit_code (outcome (module_body (Sim.host "posix" 1)
                        (mkArgs None None None None false (Some release) (Some "all")
                                true false true)
                        (Sim.mkDisk true true ["test_a"]))) = 0%Z.
Proof.
  exact (proj1 (exit_code_ignores_return_codes _ (Sim.host "posix" 1)
                  (mkArgs None None None None false (Some release) (Some "all")
                          true false true)
                  (Sim.mkDisk true true ["test_a"]) eq_refl)).
Defined.

(** ** The build action, revisited *)

(** C7, counterexample.  On a host where [cmake] cannot be executed and
    there is no build directory, the generator is called, [subprocess.run]
    raises, and the build is not called. *)
Lemma generator_not_started_no_build :
  ~ build_invoked_in_both_cases (Locked.host "cmake")
      (initial_globals (Locked.host "cmake")) DEBUG_FLAGS (Sim.mkDisk false false []).
Proof.
  intros [Habsent _]. specialize (Habsent eq_refl). discriminate Habsent.
Qed.

(** C7, amended.  In [command_build], when the build directory exists the
    only process is the build: the generator is not called.  When it does
    not exist, the generator is called once, first; if it could be started,
    the build is called after it, whatever the generator returned; if it
    could not be started, [subprocess.run] raises, [command_build] ends
    with that error and the build is not called.  The command line of the
    generator is never that of the build. *)
Theorem configure_iff_build_directory_absent
  (W : Type) (host : Host W) (g : Globals) (flags : list string) (w : W) :
  configure_cmd g flags <> build_cmd
  /\ spawned (events (command_build host g flags w))
     = (if path_exists host "./build" w then [build_cmd]
        else match fst (sp_dot_run host (configure_cmd g flags) w) with
             | Exited _ => [configure_cmd g flags; build_cmd]
             | NotStarted _ => [configure_cmd g flags]
             end)
  /\ (forall e,
        path_exists host "./build" w = false ->
        fst (sp_dot_run host (configure_cmd g flags) w) = NotStarted e ->
        outcome (command_build host g flags w) = Raise e).
Proof.
  split; [ apply configure_is_not_build | split ].
  - rewrite spawned_command_build.
    destruct (path_exists host "./build" w); [ reflexivity | ].
    now destruct (sp_dot_run host (configure_cmd g flags) w) as [[rc | e] w1].
  - intros e Hp Hrun. rewrite command_build_outcome, Hp.
    destruct (sp_dot_run host (configure_cmd g flags) w) as [[rc | e'] w1];
      cbn [fst] in Hrun; [ discriminate | now injection Hrun as -> ].
Qed.

(** ** The platform, revisited *)



(** ** Discovery, revisited *)




(** ** Running the tests, revisited *)

(** X8.  A test that fails does not stop the others: in every run of
    [run_tests] in which each binary it tried to start did start, it
    returns, whatever return codes the binaries left, having started every
    discovered binary once, each from its own path with no argument, in
    ascending order of the paths. *)
Theorem every_test_runs_whatever_it_returns
  (W : Type) (host : Host W) (pattern : option string) (w : W) :
  unhindered (events (run_tests host pattern w)) = true ->
  outcome (run_tests host pattern w) = Ok tt
  /\ spawned (events (run_tests host pattern w))
     = map single (sorted_tests host pattern w)
  /\ Sorted (fun p q => String.leb p q = true) (sorted_tests host pattern w)
  /\ Permutation (glob host (BIN_DIR host) (search_of host pattern) w)
                 (sorted_tests host pattern w).
Proof.
  intros Hun.
  assert (Hok : outcome (run_tests host pattern w) = Ok tt).
  { destruct (accountable_run_tests host pattern w Hun) as [[] E]. exact E. }
  split; [ exact Hok | split; [ | split ] ].
  - now apply (proj2 (spawned_run_tests host pattern w)).
  - apply sorted_tests_sorted.
  - apply StrSort.Permuted_sort.
Qed.

Lemma every_test_runs_whatever_it_returns_witness :
  spawned (events (run_tests (Sim.host "posix" 1) None
                     (Sim.mkDisk true true ["test_b"; "test_a"])))
  = [ ["build/bin/test_a"]; ["build/bin/test_b"] ].
Proof.
  exact (proj1 (proj2 (every_test_runs_whatever_it_returns _
                         (Sim.host "posix" 1) None
                         (Sim.mkDisk true true ["test_b"; "test_a"]) eq_refl))).
Defined.

(** ** Build and test together, revisited *)

(** X12.  With [--build] and [--test] together the project is built twice:
    in every run in which each program the script tried to start did start
    and the cache file, if its removal was tried, was removed,
    [cmake --build build] is among the processes at least two times, once
    for the build action and once for the build the test action begins
    with. *)
Theorem build_and_test_build_twice
  (W : Type) (host : Host W) (args : Args) (w : W)
  (b : build_choice) (pattern : string) :
  unhindered (events (module_body host args w)) = true ->
  build args = Some b ->
  test args = Some pattern ->
  2 <= count_occ (list_eq_dec string_dec)
         (spawned (events (module_body host args w))) build_cmd.
Proof.
  intros Hun Hb Ht.
  destruct (unhindered_run_steps host args w Hun) as (_ & He & _ & Hun5 & Hun6).
  rewrite He. clear He.
  set (g := apply_overrides args (initial_globals host)) in *.
  rewrite Hb in Hun5, Hun6 |- *. rewrite Ht in Hun6 |- *.
  replace (build_action host g (Some b)) with (command_build host g (profile_flags b))
    in Hun5, Hun6 |- * by now destruct b.
  cbn [test_action] in Hun6 |- *.
  match type of Hun5 with
  | unhindered (events (command_build host g (profile_flags b) ?w4)) = true =>
      destruct (accountable_command_build host g (profile_flags b) w4 Hun5) as [a5 O5];
      pose proof (build_cmd_spawned_when_returns host g (profile_flags b) w4 a5 O5) as Hin1
  end.
  rewrite command_test_steps in Hun6 |- *.
  destruct (accountable_step _ _ _ (accountable_command_build host g []) Hun6)
    as (a6 & O6 & E6 & _).
  rewrite E6.
  pose proof (build_cmd_spawned_when_returns host g [] _ a6 O6) as Hin2.
  rewrite !spawned_app, !count_occ_app.
  apply (count_occ_In (list_eq_dec string_dec)) in Hin1, Hin2.
  lia.
Qed.

Lemma build_and_test_build_twice_witness :
  2 <= count_occ (list_eq_dec string_dec)
         (spawned (events (module_body (Sim.host "posix" 1)
                             (mkArgs None None None None false (Some debug)
                                     (Some "all") false false false)
                             (Sim.mkDisk false false ["test_a"]))))
         build_cmd.
Proof.
  exact (build_and_test_build_twice _ (Sim.host "posix" 1)
           (mkArgs None None None None false (Some debug) (Some "all")
                   false false false)
           (Sim.mkDisk false false ["test_a"]) debug "all" eq_refl eq_refl eq_refl).
Defined.
